(** * XuperManager: pricing rules, membership tiers, cart and checkout

    A shallow embedding of the Python sources

    - [models/cart.py], [models/inventory.py], [models/order.py],
      [models/product.py]
    - [data/repository.py]
    - [services/pricing_service.py], [services/membership_service.py],
      [services/checkout_service.py]

    Python [float] is IEEE-754 binary64 and is modelled bit-exactly with
    [SpecFloat] at precision 53; [dict] is a [gmap]; objects that the code
    mutates in place (the cart, the inventory dict, the JSON files of the
    repository, the wall clock) live in one explicit [world] that every
    effectful function threads through a state-and-exception monad. *)

From Stdlib Require Import ZArith Floats.SpecFloat DecimalString DecimalNat.
From stdpp Require Import gmap strings list fin_maps.

Local Open Scope Z_scope.

(** ** Python floats *)

Module Float.

Definition prec : Z := 53.
Definition emax : Z := 1024.

Abbreviation float := spec_float.

Definition nan : float := S754_nan.
(** The literal [0.0]. *)
Definition zero : float := S754_zero false.

(** [float(z)] for an integer that fits; rounds to nearest, ties to even. *)
Definition of_int (z : Z) : float := binary_normalize prec emax z 0 false.

Definition add : float → float → float := SFadd prec emax.
Definition sub : float → float → float := SFsub prec emax.
Definition mul : float → float → float := SFmul prec emax.
Definition div : float → float → float := SFdiv prec emax.

(** [x < y], [x <= y], [x >= y]; every comparison with a NaN is false. *)
Definition lt : float → float → bool := SFltb.
Definition le : float → float → bool := SFleb.
Definition ge (x y : float) : bool := SFleb y x.

(** The float denoted by the decimal literal [n / d] (with [d] a power of
    ten): the binary64 value nearest to that rational, as the parser of
    Python produces it.  Correctly rounded division gives that value. *)
Definition lit (n d : Z) : float := div (of_int n) (of_int d).

(** Round the rational [num / den] to the nearest integer, ties to even. *)
Definition half_even (num den : Z) : Z :=
  let q := num / den in
  let r := num mod den in
  match 2 * r ?= den with
  | Lt => q
  | Gt => q + 1
  | Eq => if Z.even q then q else q + 1
  end.

(** The integer number of hundredths nearest to the exact value
    [m * 2^e] of a finite float (ties to even on the exact value). *)
Definition hundredths (m : positive) (e : Z) : Z :=
  match e with
  | Zneg p => half_even (Zpos m * 100) (2 ^ Zpos p)
  | _ => Zpos m * 100 * 2 ^ e
  end.

(** [round(x, 2)].  CPython converts the exact binary value of [x] to the
    correctly rounded decimal with two fractional digits and reads that
    decimal back as the nearest float; zeros, infinities and NaN round
    to themselves, and a value that rounds to zero keeps its sign. *)
Definition round2 (x : float) : float :=
  match x with
  | S754_finite s m e =>
      match hundredths m e with
      | Zpos n => div (S754_finite s n 0) (S754_finite false 100 0)
      | _ => S754_zero s
      end
  | _ => x
  end.

End Float.

Abbreviation float := spec_float.

(** ** Times of day and timestamps *)

Record time := mk_time {
  hour : nat; minute : nat; second : nat; microsecond : nat
}.

Record datetime := mk_datetime {
  year : nat; month : nat; day : nat; time_of : time
}.

(** [a <= b] on [datetime.time]: field by field, most significant first. *)
Definition time_le (a b : time) : bool :=
  let lex (x y : nat) (rest : bool) : bool :=
    ((x <? y)%nat || ((x =? y)%nat && rest))%bool in
  lex (hour a) (hour b)
    (lex (minute a) (minute b)
       (lex (second a) (second b) (microsecond a <=? microsecond b)%nat)).

(** [f"{n:0{width}d}"] for a natural number. *)
Definition zfill (width : nat) (n : nat) : string :=
  let digits := NilEmpty.string_of_uint (Nat.to_uint n) in
  String.concat "" (replicate (width - String.length digits) "0") +:+ digits.

(** [datetime.isoformat()]. *)
Definition isoformat (d : datetime) : string :=
  let t := time_of d in
  zfill 4 (year d) +:+ "-" +:+ zfill 2 (month d) +:+ "-" +:+ zfill 2 (day d)
  +:+ "T" +:+ zfill 2 (hour t) +:+ ":" +:+ zfill 2 (minute t)
  +:+ ":" +:+ zfill 2 (second t)
  +:+ (if (microsecond t =? 0)%nat then "" else "." +:+ zfill 6 (microsecond t)).

(** ** JSON-shaped Python values, as the repository stores them *)

Unset Elimination Schemes.
Inductive pyval :=
  | PNone
  | PBool (b : bool)
  | PInt (z : Z)
  | PFloat (f : float)
  | PStr (s : string)
  | PList (l : list pyval)
  | PDict (d : gmap string pyval).
Set Elimination Schemes.

(** What a file under [data/storage] holds.  A file that does not exist is
    an absent key of [files]; [Blank] is text that strips to the empty
    string; [Corrupt] is a file that cannot be opened, read or parsed
    ([json.loads] raises); [Holds v] is text that parses to [v]. *)
Inductive file :=
  | Blank
  | Corrupt
  | Holds (v : pyval).

(** ** Entities *)

Record CartItem := mk_CartItem { sku : string; qty : Z }.

(** A product is a dict read from [products.json]; the two keys the
    services read may be absent. *)
Record Product := mk_Product {
  p_sku : string;
  p_name : string;
  p_category : option string;
  p_price : option float;
  p_active : bool
}.

Record OrderItem := mk_OrderItem {
  oi_sku : string; oi_qty : Z; unit_price : float; subtotal : float
}.

Record Order := mk_Order {
  order_id : string; created_at : datetime; items : list OrderItem; total : float
}.

(** The pricing context dict: both keys are optional. *)
Record Context := mk_Context {
  membership : option string;
  now : option datetime
}.

(** ** The world and the monad of effects *)

Inductive exn :=
  | ValueError (msg : string)
  | KeyError (key : string)
  | OverflowError (msg : string).

Inductive outcome (A : Type) :=
  | Returns (a : A)
  | Raises (e : exn).
Arguments Returns {A} a.
Arguments Raises {A} e.

Record world := mk_world {
  (** successive readings of [datetime.now()] and how many were taken *)
  clock : nat → datetime;
  ticks : nat;
  (** the JSON files of [DataRepository], by file name *)
  files : gmap string file;
  (** [cart.items] of the session's [Cart] object *)
  cart : list CartItem;
  (** the inventory dict handed to [checkout] and mutated in place *)
  inventory : gmap string Z
}.

Definition M (A : Type) : Type := world → outcome A * world.

#[global] Instance M_ret : MRet M := λ A a w, (Returns a, w).
#[global] Instance M_bind : MBind M := λ A B f m w,
  match m w with
  | (Returns a, w') => f a w'
  | (Raises e, w') => (Raises e, w')
  end.

Definition raise {A} (e : exn) : M A := λ w, (Raises e, w).
Definition gets {A} (f : world → A) : M A := λ w, (Returns (f w), w).
Definition modify (f : world → world) : M unit := λ w, (Returns tt, f w).

Definition set_ticks (n : nat) (w : world) : world :=
  mk_world (clock w) n (files w) (cart w) (inventory w).
Definition set_files (fs : gmap string file) (w : world) : world :=
  mk_world (clock w) (ticks w) fs (cart w) (inventory w).
Definition set_cart (c : list CartItem) (w : world) : world :=
  mk_world (clock w) (ticks w) (files w) c (inventory w).
Definition set_inventory (inv : gmap string Z) (w : world) : world :=
  mk_world (clock w) (ticks w) (files w) (cart w) inv.

(** [datetime.now()]: take the next reading of the clock. *)
Definition datetime_now : M datetime := λ w,
  (Returns (clock w (ticks w)), set_ticks (S (ticks w)) w).

(** [for x in xs: body(x)]. *)
Fixpoint for_each {A} (xs : list A) (body : A → M unit) : M unit :=
  match xs with
  | [] => mret tt
  | x :: rest => body x ;; for_each rest body
  end.

(** ** models/cart.py *)

Module Cart.

Definition add (sku : string) (qty : Z) : M unit :=
  if decide (qty ≤ 0)
  then raise (ValueError "The quantity must be a positive number.")
  else modify (λ w, set_cart (cart w ++ [mk_CartItem sku qty]) w).

Definition clear : M unit := modify (set_cart []).

End Cart.

(** ** models/inventory.py *)

Module Inventory.

(** These act on [self.stock]; the dict is the argument and the result. *)
Definition add_stock (stock : gmap string Z) (sku : string) (qty : Z)
  : outcome (gmap string Z) :=
  if decide (qty ≤ 0)
  then Raises (ValueError "New inventory must be a positive number.")
  else Returns (<[sku := default 0 (stock !! sku) + qty]> stock).

Definition reduce_stock (stock : gmap string Z) (sku : string) (qty : Z)
  : outcome (gmap string Z) :=
  if decide (default 0 (stock !! sku) < qty)
  then Raises (ValueError "Insufficient stock")
  else match stock !! sku with
       | Some have => Returns (<[sku := have - qty]> stock)
       | None => Raises (KeyError sku)
       end.

End Inventory.

(** ** data/repository.py *)

Module DataRepository.

Definition _read_json (filename : string) : M pyval :=
  fs ← gets files;
  match fs !! filename with
  | None => mret (PList [])
  | Some Blank => mret (PList [])
  | Some Corrupt => mret (PList [])
  | Some (Holds v) => mret v
  end.

(** [json.dump] followed by a later [json.loads] gives the value back.
    The write itself is taken to succeed: the [OSError] that [open] and
    [json.dump] propagate when the store cannot be written is not
    modelled, so whatever is stated below of a run that goes through a
    save is stated for a store that can be written. *)
Definition _write_json (filename : string) (data : pyval) : M unit :=
  modify (λ w, set_files (<[filename := Holds data]> (files w)) w).

Definition get_products : M (list pyval) :=
  data ← _read_json "products.json";
  match data with PList l => mret l | _ => mret [] end.

Definition get_inventory : M (gmap string pyval) :=
  data ← _read_json "inventory.json";
  match data with PDict d => mret d | _ => mret ∅ end.

Definition save_inventory (inv : gmap string Z) : M unit :=
  _write_json "inventory.json" (PDict (PInt <$> inv)).

Definition get_orders : M (list pyval) :=
  data ← _read_json "orders.json";
  match data with PList l => mret l | _ => mret [] end.

Definition save_orders (orders : list pyval) : M unit :=
  _write_json "orders.json" (PList orders).

Definition default_happy_hour : pyval :=
  PDict {[ "start" := PStr "17:00"; "end" := PStr "18:00";
           "rate" := PFloat (Float.lit 5 100) ]}.

Definition default_bulk : pyval :=
  PDict {[ "threshold" := PInt 3; "rate" := PFloat (Float.lit 5 100) ]}.

Definition get_promotions : M (gmap string pyval) :=
  data ← _read_json "promotions.json";
  let data := match data with PDict d => d | _ => ∅ end in
  mret {[ "category_discounts" :=
            default (PDict ∅) (data !! "category_discounts");
          "happy_hour" := default default_happy_hour (data !! "happy_hour");
          "bulk" := default default_bulk (data !! "bulk") ]}.


Definition get_customers : M (list pyval) :=
  data ← _read_json "customers.json";
  match data with PList l => mret l | _ => mret [] end.

End DataRepository.

(** ** services/pricing_service.py *)

(** The abstract base class: a rule is anything that can [apply] itself
    to a unit price. *)
Class DiscountRule (R : Type) :=
  apply : R → string → Product → Z → float → Context → M float.

(** [round(unit_price * (1.0 - rate), 2)], the discount every rule takes. *)
Definition discounted (unit_price rate : float) : float :=
  Float.round2 (Float.mul unit_price (Float.sub (Float.of_int 1) rate)).

Module CategoryDiscountRule.

Record t := new { category_discounts : gmap string float }.

Definition apply (self : t) (sku : string) (product : Product) (qty : Z)
    (unit_price : float) (context : Context) : M float :=
  let category := default "" (p_category product) in
  match category_discounts self !! category with
  | Some rate => mret (discounted unit_price rate)
  | None => mret unit_price
  end.

End CategoryDiscountRule.

Module TimeDiscountRule.

Record t := new { start_time : time; end_time : time; rate : float }.

(** The default of [context.get] is evaluated before the lookup, so the
    clock is read whether or not the context carries its own time. *)
Definition apply (self : t) (sku : string) (product : Product) (qty : Z)
    (unit_price : float) (context : Context) : M float :=
  wall ← datetime_now;
  let now_t := time_of (default wall (now context)) in
  let in_window :=
    (time_le (start_time self) now_t && time_le now_t (end_time self))%bool in
  if in_window then mret (discounted unit_price (rate self))
  else mret unit_price.

End TimeDiscountRule.

Module MembershipDiscountRule.

Record t := new { tier_discounts : gmap string float }.

Definition apply (self : t) (sku : string) (product : Product) (qty : Z)
    (unit_price : float) (context : Context) : M float :=
  let tier := default "REGULAR" (membership context) in
  match tier_discounts self !! tier with
  | Some rate => mret (discounted unit_price rate)
  | None => mret unit_price
  end.

End MembershipDiscountRule.

Module BulkQuantityRule.

Record t := new { threshold : Z; rate : float }.

Definition apply (self : t) (sku : string) (product : Product) (qty : Z)
    (unit_price : float) (context : Context) : M float :=
  if decide (threshold self ≤ qty) then mret (discounted unit_price (rate self))
  else mret unit_price.

End BulkQuantityRule.

#[global] Instance category_rule : DiscountRule CategoryDiscountRule.t :=
  CategoryDiscountRule.apply.
#[global] Instance time_rule : DiscountRule TimeDiscountRule.t :=
  TimeDiscountRule.apply.
#[global] Instance membership_rule : DiscountRule MembershipDiscountRule.t :=
  MembershipDiscountRule.apply.
#[global] Instance bulk_rule : DiscountRule BulkQuantityRule.t :=
  BulkQuantityRule.apply.

(** An element of [List[DiscountRule]]: an object of some rule class. *)
Inductive rule : Type :=
  | Rule : ∀ {R : Type} {dispatch : DiscountRule R}, R → rule.

Definition apply_rule (x : rule) : string → Product → Z → float → Context → M float :=
  match x with Rule r => apply r end.

Module PricingService.

Record t := new { rules : list rule }.

Definition empty : t := new [].

Definition add_rule (self : t) (r : rule) : t := new (rules self ++ [r]).

(** The safety clamp of the loop body. *)
Definition clamp (price : float) : float :=
  if Float.lt price (Float.of_int 0) then Float.zero else price.

(** The [for rule in self.rules] loop, from the running [price]. *)
Fixpoint run_rules (rs : list rule) (sku : string) (product : Product)
    (qty : Z) (price : float) (context : Context) : M float :=
  match rs with
  | [] => mret price
  | r :: rest =>
      price ← apply_rule r sku product qty price context;
      run_rules rest sku product qty (clamp price) context
  end.

Definition price_item (self : t) (sku : string) (product : Product) (qty : Z)
    (base_unit_price : float) (context : option Context) : M float :=
  let context := default (mk_Context None None) context in
  price ← run_rules (rules self) sku product qty base_unit_price context;
  mret (Float.round2 price).

End PricingService.

(** ** services/membership_service.py *)

Definition compute_tier (lifetime_spend : float) : string :=
  if Float.ge lifetime_spend (Float.of_int 1000) then "VIP"
  else if Float.ge lifetime_spend (Float.of_int 500) then "GOLD"
  else if Float.ge lifetime_spend (Float.of_int 100) then "SILVER"
  else "REGULAR".

(** [value == customer_id] for a JSON value and a string: only a string
    can be equal to a string. *)
Definition eq_str (value : pyval) (s : string) : bool :=
  match value with
  | PStr s' => bool_decide (s' = s)
  | _ => false
  end.

(** Customers are dicts; [c["customer_id"]] raises when the key is absent. *)
Fixpoint find_customer (customers : list (gmap string pyval))
    (customer_id : string) : outcome (option (gmap string pyval)) :=
  match customers with
  | [] => Returns None
  | c :: rest =>
      match c !! "customer_id" with
      | None => Raises (KeyError "customer_id")
      | Some value =>
          if eq_str value customer_id then Returns (Some c)
          else find_customer rest customer_id
      end
  end.

(** ** services/report_service.py *)

Module ReportService.

(** The inventory dict is given by its [items()], in insertion order. *)
Definition low_stock (inventory : list (string * Z)) (threshold : Z)
  : list (string * Z) :=
  filter (λ entry, entry.2 ≤ threshold) inventory.

End ReportService.

(** ** services/checkout_service.py *)

Module CheckoutService.

(** [self.repo] is the file store of the world. *)
Record t := new { pricing : PricingService.t }.

(** The operand conversion of [float * int]. *)
Definition float_of_qty (z : Z) : M float :=
  match Float.of_int z with
  | S754_infinity _ => raise (OverflowError "int too large to convert to float")
  | f => mret f
  end.

(** [vars(x)] of an [OrderItem]. *)
Definition item_record (x : OrderItem) : pyval :=
  PDict {[ "sku" := PStr (oi_sku x); "qty" := PInt (oi_qty x);
           "unit_price" := PFloat (unit_price x);
           "subtotal" := PFloat (subtotal x) ]}.

(** The dict appended to the order history. *)
Definition order_record (o : Order) : pyval :=
  PDict {[ "order_id" := PStr (order_id o);
           "created_at" := PStr (isoformat (created_at o));
           "items" := PList (item_record <$> items o);
           "total" := PFloat (total o) ]}.

(** Body of the validation loop. *)
Definition validate (products_map : gmap string Product) (it : CartItem) : M unit :=
  inv ← gets inventory;
  match products_map !! sku it with
  | None => raise (ValueError ("SKU not found: " +:+ sku it))
  | Some _ =>
      if decide (default 0 (inv !! sku it) < qty it)
      then raise (ValueError ("Insufficient stock for " +:+ sku it))
      else mret tt
  end.

(** The pricing loop, with its two accumulators. *)
Fixpoint price_lines (self : t) (products_map : gmap string Product)
    (membership_tier : string) (its : list CartItem)
    (order_items : list OrderItem) (total : float)
    : M (list OrderItem * float) :=
  match its with
  | [] => mret (order_items, total)
  | it :: rest =>
      match products_map !! sku it with
      | None => raise (KeyError (sku it))
      | Some product =>
          match p_price product with
          | None => raise (KeyError "price")
          | Some base_unit_price =>
              let context := mk_Context (Some membership_tier) None in
              final_unit_price ←
                PricingService.price_item (pricing self) (sku it) product
                  (qty it) base_unit_price (Some context);
              q ← float_of_qty (qty it);
              let subtotal := Float.round2 (Float.mul final_unit_price q) in
              let total := Float.add total subtotal in
              price_lines self products_map membership_tier rest
                (order_items ++ [mk_OrderItem (sku it) (qty it) final_unit_price subtotal])
                total
          end
      end
  end.

(** Body of the deduction loop: [inventory[it.sku] -= it.qty]. *)
Definition deduct (it : CartItem) : M unit :=
  inv ← gets inventory;
  match inv !! sku it with
  | None => raise (KeyError (sku it))
  | Some have => modify (set_inventory (<[sku it := have - qty it]> inv))
  end.

Definition checkout (self : t) (products_map : gmap string Product)
    (membership_tier : string) : M Order :=
  its ← gets cart;
  for_each its (validate products_map);;
  its ← gets cart;
  '(order_items, total) ←
    price_lines self products_map membership_tier its [] Float.zero;
  let total := Float.round2 total in
  its ← gets cart;
  for_each its deduct;;
  orders ← DataRepository.get_orders;
  let order_id := "ORD-" +:+ zfill 6 (length orders + 1) in
  created_at ← datetime_now;
  let order := mk_Order order_id created_at order_items total in
  let orders := orders ++ [order_record order] in
  DataRepository.save_orders orders;;
  inv ← gets inventory;
  DataRepository.save_inventory inv;;
  Cart.clear;;
  mret order.

End CheckoutService.

(** ** The error kinds of the specification, as the code raises them *)

Definition InvalidQuantity : exn :=
  ValueError "The quantity must be a positive number.".
Definition SkuNotFound (sku : string) : exn :=
  ValueError ("SKU not found: " +:+ sku).
Definition InsufficientStock (sku : string) : exn :=
  ValueError ("Insufficient stock for " +:+ sku).

(** The bands of the tier table, as the specification words them. *)
Inductive tier_band : float → string → Prop :=
  | band_vip x :
      Float.ge x (Float.of_int 1000) = true → tier_band x "VIP"
  | band_gold x :
      Float.ge x (Float.of_int 500) = true →
      Float.lt x (Float.of_int 1000) = true → tier_band x "GOLD"
  | band_silver x :
      Float.ge x (Float.of_int 100) = true →
      Float.lt x (Float.of_int 500) = true → tier_band x "SILVER"
  | band_regular x :
      Float.lt x (Float.of_int 100) = true → tier_band x "REGULAR".

(** A running price that rounding to two decimals leaves alone. *)
Definition two_decimal (p : float) : Prop := Float.round2 p = p.

(** [0 <= p]. *)
Definition nonneg (p : float) : Prop := Float.le (Float.of_int 0) p = true.

(** The four rule classes that the module ships. *)
Inductive standard : rule → Prop :=
  | standard_category (r : CategoryDiscountRule.t) : standard (Rule r)
  | standard_time (r : TimeDiscountRule.t) : standard (Rule r)
  | standard_membership (r : MembershipDiscountRule.t) : standard (Rule r)
  | standard_bulk (r : BulkQuantityRule.t) : standard (Rule r).

(** The specification's sentence on intermediate prices, read literally:
    whatever prefix [applied] of the rule list has run, the running price
    is a two-decimal value and is not below zero. *)
Definition rounded_and_clamped_after_every_rule : Prop :=
  ∀ (applied : list rule) sku product qty base context w p w',
    nonneg base →
    applied ≠ [] →
    PricingService.run_rules applied sku product qty base context w
      = (Returns p, w') →
    two_decimal p ∧ nonneg p.

(** The engine of the compounding example: the four rules, registered in
    this order, for a membership table [tiers]. *)
Definition example_engine (tiers : gmap string float) : PricingService.t :=
  let e := PricingService.empty in
  let e := PricingService.add_rule e
             (Rule (CategoryDiscountRule.new {[ "Dairy" := Float.lit 10 100 ]})) in
  let e := PricingService.add_rule e
             (Rule (TimeDiscountRule.new (mk_time 17 0 0 0) (mk_time 18 0 0 0)
                      (Float.lit 5 100))) in
  let e := PricingService.add_rule e (Rule (MembershipDiscountRule.new tiers)) in
  PricingService.add_rule e (Rule (BulkQuantityRule.new 3 (Float.lit 5 100))).

(** [start <= t <= end]. *)
Definition in_window (start_time end_time t : time) : bool :=
  time_le start_time t && time_le t end_time.

(** A cart line that validation rejects, against a catalog and a stock
    snapshot: its SKU is not in the catalog, or it asks for more than the
    snapshot has (a SKU without an entry has none). *)
Definition offends (products_map : gmap string Product) (inv : gmap string Z)
    (it : CartItem) : Prop :=
  products_map !! sku it = None ∨ default 0 (inv !! sku it) < qty it.

(** The error that validation reports for an offending line. *)
Definition validation_error (products_map : gmap string Product)
    (it : CartItem) : exn :=
  match products_map !! sku it with
  | None => SkuNotFound (sku it)
  | Some _ => InsufficientStock (sku it)
  end.

(** The persisted order history: what [orders.json] holds when it holds a
    list, and the empty history otherwise. *)
Definition order_history (w : world) : list pyval :=
  match files w !! "orders.json" with
  | Some (Holds (PList l)) => l
  | _ => []
  end.

(** Two worlds with the same files, cart and inventory. *)
Definition same_store (w w' : world) : Prop :=
  files w' = files w ∧ cart w' = cart w ∧ inventory w' = inventory w.

(** A rule that leaves the files, the cart and the inventory alone. *)
Definition keeps_store (r : rule) : Prop :=
  ∀ sku product qty price context w,
    same_store w (snd (apply_rule r sku product qty price context w)).

(** A quantity that [float * int] can convert. *)
Definition converts (z : Z) : Prop :=
  match Float.of_int z with S754_infinity _ => False | _ => True end.

(** The commit phase of [checkout] once the stock is deducted: take the
    next order id, stamp the order, append it to the history, save the
    inventory and clear the cart. *)
Definition persist (order_items : list OrderItem) (total : float) : M Order :=
  orders ← DataRepository.get_orders;
  let order_id := "ORD-" +:+ zfill 6 (length orders + 1) in
  created_at ← datetime_now;
  let order := mk_Order order_id created_at order_items total in
  let orders := orders ++ [CheckoutService.order_record order] in
  DataRepository.save_orders orders;;
  inv ← gets inventory;
  DataRepository.save_inventory inv;;
  Cart.clear;;
  mret order.

(** [checkout] up to its commit phase: validate every line, price the
    lines, round the total and deduct the stock in place.  The order
    lines and the total are what the commit phase goes on with. *)
Definition before_commit (self : CheckoutService.t)
    (products_map : gmap string Product) (membership_tier : string)
    : M (list OrderItem * float) :=
  its ← gets cart;
  for_each its (CheckoutService.validate products_map);;
  its ← gets cart;
  '(order_items, total) ←
    CheckoutService.price_lines self products_map membership_tier its []
      Float.zero;
  let total := Float.round2 total in
  its ← gets cart;
  for_each its CheckoutService.deduct;;
  mret (order_items, total).

(** The order that [persist] builds in a world, and the world it leaves. *)
Definition persisted_order (order_items : list OrderItem) (total : float)
    (w : world) : Order :=
  mk_Order ("ORD-" +:+ zfill 6 (length (order_history w) + 1))
    (clock w (ticks w)) order_items total.

Definition persisted_world (o : Order) (w : world) : world :=
  mk_world (clock w) (S (ticks w))
    (<["inventory.json" := Holds (PDict (PInt <$> inventory w))]>
       (<["orders.json" :=
            Holds (PList (order_history w ++ [CheckoutService.order_record o]))]>
          (files w)))
    [] (inventory w).

(** The promotions object that the store holds: the content of
    [promotions.json] when that is a JSON object, and no component at all
    when the file is missing, blank, corrupt or holds something else. *)
Definition stored_promotions (w : world) : gmap string pyval :=
  match files w !! "promotions.json" with
  | Some (Holds (PDict d)) => d
  | _ => ∅
  end.

(** The config that [get_promotions] assembles from the stored object. *)
Definition promotions_config (w : world) : gmap string pyval :=
  {[ "category_discounts" :=
       default (PDict ∅) (stored_promotions w !! "category_discounts");
     "happy_hour" :=
       default DataRepository.default_happy_hour
         (stored_promotions w !! "happy_hour");
     "bulk" :=
       default DataRepository.default_bulk (stored_promotions w !! "bulk") ]}.

(** The fixed default of each component. *)
Definition default_of (key : string) : pyval :=
  if decide (key = "happy_hour") then DataRepository.default_happy_hour
  else if decide (key = "bulk") then DataRepository.default_bulk
  else PDict ∅.

(** The weakest reading of a malformed component: one that is not even a
    JSON object. *)
Definition malformed (v : pyval) : Prop :=
  match v with PDict _ => False | _ => True end.

(** The specification's sentence on promotions, read literally: the call
    returns, and a component that is missing from the store or malformed
    there comes back as its default. *)
Definition promotions_default_when_missing_or_malformed : Prop :=
  ∀ w key,
    key ∈ ["category_discounts"; "happy_hour"; "bulk"] →
    match stored_promotions w !! key with
    | None => True
    | Some v => malformed v
    end →
    ∃ cfg,
      DataRepository.get_promotions w = (Returns cfg, w) ∧
      cfg !! key = Some (default_of key).

(** What a run returned, when it returned. *)
Definition returned {A} (r : outcome A * world) : option A :=
  match fst r with Returns a => Some a | Raises _ => None end.

(** ** Further vocabulary *)

(** A price on which the test [price < 0] fails. *)
Definition not_negative (p : float) : Prop :=
  Float.lt p (Float.of_int 0) = false.

(** The tiers, from lowest to highest. *)
Definition tier_rank (tier : string) : nat :=
  if decide (tier = "VIP") then 3
  else if decide (tier = "GOLD") then 2
  else if decide (tier = "SILVER") then 1
  else 0.

(** [a <= b] on times of day, as a proposition on the fields. *)
Definition time_before (a b : time) : Prop :=
  (hour a < hour b ∨ (hour a = hour b ∧
   (minute a < minute b ∨ (minute a = minute b ∧
    (second a < second b ∨ (second a = second b ∧
     microsecond a ≤ microsecond b))))))%nat.

(** The units of SKU [k] that the lines [its] ask for, all lines together. *)
Definition demand (k : string) (its : list CartItem) : Z :=
  foldr (λ it acc, if decide (sku it = k) then qty it + acc else acc) 0 its.



(** A cart line whose product, when the catalog has it, carries a price. *)
Definition priced (products_map : gmap string Product) (it : CartItem) : Prop :=
  ∀ product, products_map !! sku it = Some product → is_Some (p_price product).

(** Reading a decimal numeral back: [int(digits)] on a string of digits. *)
Definition read_number (digits : string) : option nat :=
  Nat.of_uint <$> NilEmpty.uint_of_string digits.

(** A customer record whose id is [customer_id], and one that has an id
    which is something else. *)
Definition has_id (customer_id : string) (c : gmap string pyval) : Prop :=
  c !! "customer_id" = Some (PStr customer_id).

Definition other_id (customer_id : string) (c : gmap string pyval) : Prop :=
  ∃ value, c !! "customer_id" = Some value ∧ eq_str value customer_id = false.

(** The cart entries that a run of [add] calls leaves behind: those of
    the requests before the first one with a quantity that is not
    positive. *)
Fixpoint accepted (requests : list (string * Z)) : list CartItem :=
  match requests with
  | [] => []
  | request :: rest =>
      if decide (request.2 ≤ 0) then []
      else mk_CartItem request.1 request.2 :: accepted rest
  end.

(** What a list-shaped store and a dict-shaped store read from a file
    state: the stored value when it has the right JSON shape, and the
    empty one when the file is missing, blank, corrupt or of another
    shape. *)
Definition stored_list (f : option file) : list pyval :=
  match f with Some (Holds (PList l)) => l | _ => [] end.

Definition stored_dict (f : option file) : gmap string pyval :=
  match f with Some (Holds (PDict d)) => d | _ => ∅ end.


(** * Properties *)

(** ** Running monadic code *)

Lemma bind_returns {A B} (m : M A) (f : A → M B) w a w' :
  m w = (Returns a, w') → (m ≫= f) w = f a w'.
Proof. intros E. unfold mbind, M_bind. by rewrite E. Qed.

Lemma bind_raises {A B} (m : M A) (f : A → M B) w e w' :
  m w = (Raises e, w') → (m ≫= f) w = (Raises e, w').
Proof. intros E. unfold mbind, M_bind. by rewrite E. Qed.

Ltac run := unfold mbind, M_bind, mret, M_ret, gets, modify, raise; simpl.

(** ** Order facts for float comparison *)

Section FloatOrder.

Lemma compare_swap (x y : float) :
  SFcompare y x = CompOpp <$> SFcompare x y.
Proof.
  destruct x as [[]|[]| |[] m1 e1], y as [[]|[]| |[] m2 e2]; simpl; try done.
  all: rewrite (Z.compare_antisym e1 e2);
    destruct (e1 ?= e2); simpl; try done.
  all: change (Pos.compare_cont Eq ?a ?b) with (a ?= b)%positive.
  all: rewrite (Pos.compare_antisym m1 m2); by destruct (m1 ?= m2)%positive.
Qed.

Lemma lt_not_ge (x y : float) :
  Float.lt x y = true → Float.ge x y = false.
Proof.
  unfold Float.lt, Float.ge, SFltb, SFleb. rewrite (compare_swap x y).
  by destruct (SFcompare x y) as [[]|].
Qed.

Lemma lt_finite_pos m1 e1 m2 e2 :
  Float.lt (S754_finite false m1 e1) (S754_finite false m2 e2) = true ↔
  e1 < e2 ∨ (e1 = e2 ∧ (m1 < m2)%positive).
Proof.
  unfold Float.lt, SFltb. simpl.
  change (Pos.compare_cont Eq m1 m2) with (m1 ?= m2)%positive.
  destruct (Z.compare_spec e1 e2); [destruct (Pos.compare_spec m1 m2)|..];
    split; try done; lia.
Qed.

(** Below the smaller of two finite positive constants is below the
    larger. *)
Lemma lt_trans_pos (x : float) m1 e1 m2 e2 :
  Float.lt (S754_finite false m1 e1) (S754_finite false m2 e2) = true →
  Float.lt x (S754_finite false m1 e1) = true →
  Float.lt x (S754_finite false m2 e2) = true.
Proof.
  destruct x as [[]|[]| |[] m e]; try done.
  rewrite !lt_finite_pos. lia.
Qed.

(** What the test [price < 0] leaves through. *)
Lemma not_lt_zero (p : float) :
  Float.lt p (Float.of_int 0) = false ↔
  p = Float.nan ∨ Float.le (Float.of_int 0) p = true.
Proof.
  destruct p as [[]|[]| |[] m e]; vm_compute; intuition congruence.
Qed.

End FloatOrder.

(** ** Membership tiers *)

(** C4: [compute_tier] returns VIP for a spend of at least 1000, GOLD from
    500 up to but excluding 1000, SILVER from 100 up to but excluding 500,
    and REGULAR below 100. *)
Theorem compute_tier_band (spend : float) (tier : string) :
  tier_band spend tier → compute_tier spend = tier.
Proof.
  unfold compute_tier. destruct 1 as [x H|x H1 H2|x H1 H2|x H].
  - by rewrite H.
  - by rewrite (lt_not_ge _ _ H2), H1.
  - rewrite H1, (lt_not_ge _ _ H2).
    assert (Float.lt x (Float.of_int 1000) = true) as H3
      by (revert H2; by apply lt_trans_pos).
    by rewrite (lt_not_ge _ _ H3).
  - assert (Float.lt x (Float.of_int 500) = true) as H5
      by (revert H; by apply lt_trans_pos).
    assert (Float.lt x (Float.of_int 1000) = true) as H10
      by (revert H; by apply lt_trans_pos).
    by rewrite (lt_not_ge _ _ H), (lt_not_ge _ _ H5), (lt_not_ge _ _ H10).
Qed.

(** The boundary values of the tier table. *)
Lemma compute_tier_boundaries :
  (tier_band (Float.lit 9999 100) "REGULAR" ∧
   compute_tier (Float.lit 9999 100) = "REGULAR") ∧
  (tier_band (Float.lit 10000 100) "SILVER" ∧
   compute_tier (Float.lit 10000 100) = "SILVER") ∧
  (tier_band (Float.lit 49999 100) "SILVER" ∧
   compute_tier (Float.lit 49999 100) = "SILVER") ∧
  (tier_band (Float.lit 50000 100) "GOLD" ∧
   compute_tier (Float.lit 50000 100) = "GOLD") ∧
  (tier_band (Float.lit 99999 100) "GOLD" ∧
   compute_tier (Float.lit 99999 100) = "GOLD") ∧
  (tier_band (Float.lit 100000 100) "VIP" ∧
   compute_tier (Float.lit 100000 100) = "VIP").
Proof.
  pose (K := λ x t (H : tier_band x t), conj H (compute_tier_band x t H)).
  refine (conj (K _ _ _) (conj (K _ _ _) (conj (K _ _ _)
           (conj (K _ _ _) (conj (K _ _ _) (K _ _ _)))))).
  - apply band_regular; vm_compute; reflexivity.
  - apply band_silver; vm_compute; reflexivity.
  - apply band_silver; vm_compute; reflexivity.
  - apply band_gold; vm_compute; reflexivity.
  - apply band_gold; vm_compute; reflexivity.
  - apply band_vip; vm_compute; reflexivity.
Defined.

(** ** The cart *)

(** C8: [Cart.add] raises the invalid-quantity error exactly when
    [qty <= 0] and then leaves the cart as it was; otherwise it returns and
    the cart is the old one with the single new entry at its end. *)
Theorem cart_add_spec (sku : string) (qty : Z) (w : world) :
  ((∃ e, fst (Cart.add sku qty w) = Raises e) ↔ qty ≤ 0) ∧
  Cart.add sku qty w =
    if decide (qty ≤ 0) then (Raises InvalidQuantity, w)
    else (Returns tt, set_cart (cart w ++ [mk_CartItem sku qty]) w).
Proof.
  unfold Cart.add. destruct (decide (qty ≤ 0)) as [Hq|Hq]; run.
  - split; [|done]. split; [done|]. intros _. by eexists.
  - split; [|done]. split; [|done]. by intros [e He].
Qed.

(** ** Pricing *)

Section Pricing.

Context (sku : string) (product : Product) (qty : Z) (context : Context).

Lemma run_rules_cons r rs price w :
  PricingService.run_rules (r :: rs) sku product qty price context w =
  match apply_rule r sku product qty price context w with
  | (Returns q, w') =>
      PricingService.run_rules rs sku product qty (PricingService.clamp q) context w'
  | (Raises e, w') => (Raises e, w')
  end.
Proof. reflexivity. Qed.

(** The loop over a concatenation is the loop over the first part
    followed by the loop over the second. *)
Lemma run_rules_app rs1 rs2 price w :
  PricingService.run_rules (rs1 ++ rs2) sku product qty price context w =
  match PricingService.run_rules rs1 sku product qty price context w with
  | (Returns q, w') => PricingService.run_rules rs2 sku product qty q context w'
  | (Raises e, w') => (Raises e, w')
  end.
Proof.
  revert price w. induction rs1 as [|r rs1 IH]; intros price w; [done|].
  rewrite <- app_comm_cons, !run_rules_cons.
  destruct (apply_rule r sku product qty price context w) as [[q|e] w1]; [|done].
  apply IH.
Qed.

Lemma run_rules_snoc rs r price w :
  PricingService.run_rules (rs ++ [r]) sku product qty price context w =
  match PricingService.run_rules rs sku product qty price context w with
  | (Returns p0, w0) =>
      match apply_rule r sku product qty p0 context w0 with
      | (Returns q, w') => (Returns (PricingService.clamp q), w')
      | (Raises e, w') => (Raises e, w')
      end
  | (Raises e, w') => (Raises e, w')
  end.
Proof.
  rewrite run_rules_app.
  destruct (PricingService.run_rules rs _ _ _ _ _ _) as [[p0|e] w0]; [|done].
  rewrite run_rules_cons.
  by destruct (apply_rule r sku product qty p0 context w0) as [[q|e] w1].
Qed.

Lemma clamp_not_negative q :
  Float.lt (PricingService.clamp q) (Float.of_int 0) = false.
Proof.
  unfold PricingService.clamp.
  destruct (Float.lt q (Float.of_int 0)) eqn:E; [reflexivity | exact E].
Qed.

(** A rule of the four shipped classes returns, and what it returns is
    its input or the rounded discount of its input. *)
Lemma standard_apply r price w :
  standard r →
  ∃ q w', apply_rule r sku product qty price context w = (Returns q, w') ∧
          (q = price ∨ ∃ rate, q = discounted price rate).
Proof.
  destruct 1 as [r|r|r|r]; simpl; unfold apply.
  - unfold category_rule, CategoryDiscountRule.apply.
    destruct (_ !! _) as [rate|]; run; eauto 6.
  - unfold time_rule, TimeDiscountRule.apply. run.
    destruct (_ && _)%bool; eauto 6.
  - unfold membership_rule, MembershipDiscountRule.apply.
    destruct (_ !! _) as [rate|]; run; eauto 6.
  - unfold bulk_rule, BulkQuantityRule.apply.
    destruct (decide _); run; eauto 6.
Qed.

End Pricing.

(** C6, as amended: after every rule application the running price is
    what the rule returned, except that a return below zero is replaced
    by 0.0 before the next rule runs; so the test [price < 0] fails on
    it (it is NaN or at least zero).  A rule of the shipped classes
    returns either its input unchanged, unrounded if the input was, or
    the two-decimal rounding of [input * (1.0 - rate)].  When the rule is
    the last one of the engine, [price_item] returns the two-decimal
    rounding of that running price. *)
Theorem run_rules_clamped (applied : list rule) (r : rule) sku product qty
    base context w p w' :
  PricingService.run_rules (applied ++ [r]) sku product qty base context w
    = (Returns p, w') →
  Float.lt p (Float.of_int 0) = false ∧
  (p = Float.nan ∨ nonneg p) ∧
  (∃ p0 w0 q,
    PricingService.run_rules applied sku product qty base context w
      = (Returns p0, w0) ∧
    apply_rule r sku product qty p0 context w0 = (Returns q, w') ∧
    p = (if Float.lt q (Float.of_int 0) then S754_zero false else q) ∧
    (standard r →
     q = p0 ∨
     ∃ rate, q = Float.round2 (Float.mul p0 (Float.sub (Float.of_int 1) rate)))) ∧
  (∀ (self : PricingService.t) u w2,
    PricingService.rules self = applied ++ [r] →
    PricingService.price_item self sku product qty base (Some context) w
      = (Returns u, w2) →
    u = Float.round2 p ∧ w2 = w').
Proof.
  intros Erun. pose proof Erun as Erun'. revert Erun'.
  rewrite run_rules_snoc.
  destruct (PricingService.run_rules applied _ _ _ _ _ _) as [[p0|e] w0] eqn:E0;
    [|done].
  destruct (apply_rule r sku product qty p0 context w0) as [[q|e] w1] eqn:E1;
    [|done].
  intros [= <- <-]. split_and!.
  - apply clamp_not_negative.
  - apply not_lt_zero, clamp_not_negative.
  - exists p0, w0, q. split_and!; try done.
    intros Hr.
    destruct (standard_apply sku product qty context r p0 w0 Hr)
      as (q' & w'' & Eq & Hq).
    rewrite E1 in Eq. by injection Eq as <- <-.
  - intros self u w2 Hrules. unfold PricingService.price_item.
    change (default (mk_Context None None) (Some context)) with context.
    rewrite Hrules, (bind_returns _ _ _ _ _ Erun).
    by intros [= <- <-].
Qed.

(** A category rate of 150 percent on 10.00: the rule returns -5.00, the
    running price after it is 0.0, and [price_item] returns 0.0. *)
Lemma run_rules_clamped_witness :
  let category := Rule (CategoryDiscountRule.new {[ "Dairy" := Float.lit 150 100 ]}) in
  let engine := PricingService.add_rule PricingService.empty category in
  let w := mk_world (λ _, mk_datetime 2025 1 1 (mk_time 9 0 0 0)) 0 ∅ [] ∅ in
  let product := mk_Product "A" "Milk" (Some "Dairy") (Some (Float.lit 1000 100)) true in
  apply_rule category "A" product 1 (Float.lit 1000 100) (mk_Context None None) w
    = (Returns (Float.lit (-500) 100), w) ∧
  PricingService.run_rules ([] ++ [category]) "A" product 1 (Float.lit 1000 100)
    (mk_Context None None) w = (Returns (S754_zero false), w) ∧
  Float.lt (S754_zero false) (Float.of_int 0) = false ∧
  PricingService.price_item engine "A" product 1 (Float.lit 1000 100)
    (Some (mk_Context None None)) w = (Returns (S754_zero false), w).
Proof.
  intros category engine w product.
  assert (PricingService.run_rules ([] ++ [category]) "A" product 1
            (Float.lit 1000 100) (mk_Context None None) w
          = (Returns (S754_zero false), w)) as E by (vm_compute; reflexivity).
  split; [vm_compute; reflexivity|]. split; [exact E|].
  destruct (run_rules_clamped [] category "A" product 1 (Float.lit 1000 100)
              (mk_Context None None) w _ w E) as (Hlt & _ & _ & Hfinal).
  split; [exact Hlt|].
  destruct (PricingService.price_item engine "A" product 1 (Float.lit 1000 100)
              (Some (mk_Context None None)) w) as [[u|e] w2] eqn:Eu.
  - destruct (Hfinal engine u w2 eq_refl Eu) as [-> ->]. reflexivity.
  - exfalso. revert Eu. vm_compute. discriminate.
Defined.

(** C6, refuted as stated: a rule that passes a price through does not
    round it, so a base price of 0.125 is still 0.125 after a bulk rule
    that does not fire, and 0.125 is not a two-decimal value. *)
Lemma pass_through_is_not_rounded : ¬ rounded_and_clamped_after_every_rule.
Proof.
  intros literal.
  pose (w := mk_world (λ _, mk_datetime 2025 1 1 (mk_time 9 0 0 0)) 0 ∅ [] ∅).
  pose (product := mk_Product "A" "Milk" (Some "Dairy") (Some (Float.lit 125 1000)) true).
  destruct (literal [Rule (BulkQuantityRule.new 3 (Float.lit 5 100))]
              "A" product 1 (Float.lit 125 1000) (mk_Context None None) w
              (Float.lit 125 1000) w) as [Hround _].
  - vm_compute. reflexivity.
  - discriminate.
  - vm_compute. reflexivity.
  - vm_compute in Hround. discriminate.
Qed.

(** The clamp lets a NaN through: an infinite rate on a price of 0.0
    gives [0.0 * -inf], and no comparison with NaN holds. *)
Example clamp_keeps_nan :
  let bulk := Rule (BulkQuantityRule.new 1 (S754_infinity false)) in
  let w := mk_world (λ _, mk_datetime 2025 1 1 (mk_time 9 0 0 0)) 0 ∅ [] ∅ in
  let product := mk_Product "A" "Milk" None (Some Float.zero) true in
  PricingService.run_rules [bulk] "A" product 1 Float.zero (mk_Context None None) w
  = (Returns Float.nan, w).
Proof. vm_compute. reflexivity. Qed.

(** C3: with the rules Category(Dairy 10%), TimeWindow(17:00-18:00, 5%),
    Membership(VIP 8%), Bulk(3 or more, 5%) registered in this order, a
    Dairy product at base price 10.00, quantity 3, a context time inside
    the window and tier VIP, the running price is 9.00, 8.55, 7.87 and
    7.48 after the first, second, third and fourth rule, and [price_item]
    returns 7.48. *)
Theorem compounding_example (tiers : gmap string float) sku product when w :
  tiers !! "VIP" = Some (Float.lit 8 100) →
  p_category product = Some "Dairy" →
  in_window (mk_time 17 0 0 0) (mk_time 18 0 0 0) (time_of when) = true →
  let context := mk_Context (Some "VIP") (Some when) in
  let engine := example_engine tiers in
  let after n :=
    fst (PricingService.run_rules (take n (PricingService.rules engine))
           sku product 3 (Float.lit 1000 100) context w) in
  after 1%nat = Returns (Float.lit 900 100) ∧
  after 2%nat = Returns (Float.lit 855 100) ∧
  after 3%nat = Returns (Float.lit 787 100) ∧
  after 4%nat = Returns (Float.lit 748 100) ∧
  fst (PricingService.price_item engine sku product 3 (Float.lit 1000 100)
         (Some context) w) = Returns (Float.lit 748 100).
Proof.
  intros Htier Hcat Hwin context engine after.
  assert (∀ p w, apply_rule (Rule (CategoryDiscountRule.new
                     {[ "Dairy" := Float.lit 10 100 ]}))
                   sku product 3 p context w
                 = (Returns (discounted p (Float.lit 10 100)), w)) as R1.
  { intros p w0. simpl. unfold apply, category_rule, CategoryDiscountRule.apply.
    rewrite Hcat. reflexivity. }
  assert (∀ p w, apply_rule (Rule (TimeDiscountRule.new (mk_time 17 0 0 0)
                     (mk_time 18 0 0 0) (Float.lit 5 100)))
                   sku product 3 p context w
                 = (Returns (discounted p (Float.lit 5 100)),
                    set_ticks (S (ticks w)) w)) as R2.
  { intros p w0. simpl. unfold apply, time_rule, TimeDiscountRule.apply. run.
    unfold in_window in Hwin. rewrite Hwin. reflexivity. }
  assert (∀ p w, apply_rule (Rule (MembershipDiscountRule.new tiers))
                   sku product 3 p context w
                 = (Returns (discounted p (Float.lit 8 100)), w)) as R3.
  { intros p w0. simpl. unfold apply, membership_rule, MembershipDiscountRule.apply.
    simpl. rewrite Htier. reflexivity. }
  assert (∀ p w, apply_rule (Rule (BulkQuantityRule.new 3 (Float.lit 5 100)))
                   sku product 3 p context w
                 = (Returns (discounted p (Float.lit 5 100)), w)) as R4.
  { intros p w0. reflexivity. }
  assert (PricingService.clamp (discounted (Float.lit 1000 100) (Float.lit 10 100))
          = Float.lit 900 100) as S1 by (vm_compute; reflexivity).
  assert (PricingService.clamp (discounted (Float.lit 900 100) (Float.lit 5 100))
          = Float.lit 855 100) as S2 by (vm_compute; reflexivity).
  assert (PricingService.clamp (discounted (Float.lit 855 100) (Float.lit 8 100))
          = Float.lit 787 100) as S3 by (vm_compute; reflexivity).
  assert (PricingService.clamp (discounted (Float.lit 787 100) (Float.lit 5 100))
          = Float.lit 748 100) as S4 by (vm_compute; reflexivity).
  assert (Float.round2 (Float.lit 748 100) = Float.lit 748 100) as S5
    by (vm_compute; reflexivity).
  subst after. cbv beta.
  change (PricingService.rules engine) with
    [Rule (CategoryDiscountRule.new {[ "Dairy" := Float.lit 10 100 ]});
     Rule (TimeDiscountRule.new (mk_time 17 0 0 0) (mk_time 18 0 0 0)
             (Float.lit 5 100));
     Rule (MembershipDiscountRule.new tiers);
     Rule (BulkQuantityRule.new 3 (Float.lit 5 100))].
  unfold PricingService.price_item.
  change (PricingService.rules engine) with
    [Rule (CategoryDiscountRule.new {[ "Dairy" := Float.lit 10 100 ]});
     Rule (TimeDiscountRule.new (mk_time 17 0 0 0) (mk_time 18 0 0 0)
             (Float.lit 5 100));
     Rule (MembershipDiscountRule.new tiers);
     Rule (BulkQuantityRule.new 3 (Float.lit 5 100))].
  unfold take, default, mbind, M_bind.
  repeat (rewrite run_rules_cons, ?R1, ?R2, ?R3, ?R4; cbv beta iota;
          rewrite ?S1, ?S2, ?S3, ?S4).
  cbn [PricingService.run_rules mret M_ret fst].
  split_and!; [reflexivity..|exact (f_equal Returns S5)].
Qed.

(** The example at 17:30 with the membership table of the application. *)
Lemma compounding_example_witness :
  let tiers : gmap string float :=
    {[ "REGULAR" := Float.lit 0 100; "SILVER" := Float.lit 2 100;
       "GOLD" := Float.lit 5 100; "VIP" := Float.lit 8 100 ]} in
  let product := mk_Product "MILK-1" "Milk" (Some "Dairy") (Some (Float.lit 1000 100)) true in
  let when := mk_datetime 2025 11 3 (mk_time 17 30 0 0) in
  let w := mk_world (λ _, mk_datetime 2025 11 3 (mk_time 9 0 0 0)) 0 ∅ [] ∅ in
  fst (PricingService.price_item (example_engine tiers) "MILK-1" product 3
         (Float.lit 1000 100) (Some (mk_Context (Some "VIP") (Some when))) w)
  = Returns (Float.lit 748 100).
Proof.
  intros tiers product when w.
  refine (proj2 (proj2 (proj2 (proj2
            (compounding_example tiers "MILK-1" product when w _ _ _)))));
    vm_compute; reflexivity.
Defined.

(** ** Checkout: validation *)

Section Validation.

Context (products_map : gmap string Product).

Lemma offends_dec inv it :
  {offends products_map inv it} + {¬ offends products_map inv it}.
Proof.
  unfold offends. destruct (products_map !! sku it) as [p|].
  - destruct (decide (default 0 (inv !! sku it) < qty it)) as [H|H].
    + left. by right.
    + right. by intros [|].
  - left. by left.
Qed.

Lemma validate_passes it w :
  ¬ offends products_map (inventory w) it →
  CheckoutService.validate products_map it w = (Returns tt, w).
Proof.
  unfold offends, CheckoutService.validate. intros H. run.
  destruct (products_map !! sku it) as [p|]; [|by destruct H; left].
  destruct (decide _) as [Hlt|]; [|done]. destruct H. by right.
Qed.

Lemma validate_fails it w :
  offends products_map (inventory w) it →
  CheckoutService.validate products_map it w
    = (Raises (validation_error products_map it), w).
Proof.
  unfold offends, CheckoutService.validate, validation_error. intros H. run.
  destruct (products_map !! sku it) as [p|]; [|done].
  destruct (decide _) as [|Hge]; [done|]. by destruct H.
Qed.

Lemma validation_passes its w :
  Forall (λ it, ¬ offends products_map (inventory w) it) its →
  for_each its (CheckoutService.validate products_map) w = (Returns tt, w).
Proof.
  induction 1 as [|it its Hit _ IH]; [done|]. simpl.
  by rewrite (bind_returns _ _ _ _ _ (validate_passes it w Hit)).
Qed.

Lemma validation_fails pre it post w :
  Forall (λ it, ¬ offends products_map (inventory w) it) pre →
  offends products_map (inventory w) it →
  for_each (pre ++ it :: post) (CheckoutService.validate products_map) w
    = (Raises (validation_error products_map it), w).
Proof.
  intros Hpre Hit. induction Hpre as [|x pre Hx _ IH]; simpl.
  - by rewrite (bind_raises _ _ _ _ _ (validate_fails it w Hit)).
  - by rewrite (bind_returns _ _ _ _ _ (validate_passes x w Hx)).
Qed.

Lemma first_offender inv its :
  Exists (offends products_map inv) its →
  ∃ pre it post,
    its = pre ++ it :: post ∧
    Forall (λ x, ¬ offends products_map inv x) pre ∧
    offends products_map inv it.
Proof.
  induction its as [|x its IH]; intros H; [by apply Exists_nil in H|].
  destruct (offends_dec inv x) as [Hx|Hx].
  - exists [], x, its. by repeat split.
  - apply Exists_cons in H as [H|H]; [done|].
    destruct (IH H) as (pre & it & post & -> & Hpre & Hit).
    exists (x :: pre), it, post. repeat split; [|done]. by constructor.
Qed.

End Validation.

(** C2: when some line of the cart names a SKU that the catalog lacks or
    asks for more than the stock, [checkout] raises, for the first such
    line in cart order, the error of that line ([SkuNotFound] when the SKU
    is unknown, [InsufficientStock] otherwise), and the world after the
    call (inventory, files and so the order history, cart) is the world
    before it. *)
Theorem checkout_fails_atomically (self : CheckoutService.t)
    (products_map : gmap string Product) (membership_tier : string) (w : world) :
  Exists (offends products_map (inventory w)) (cart w) →
  ∃ pre it post,
    cart w = pre ++ it :: post ∧
    Forall (λ x, ¬ offends products_map (inventory w) x) pre ∧
    offends products_map (inventory w) it ∧
    CheckoutService.checkout self products_map membership_tier w
      = (Raises (validation_error products_map it), w).
Proof.
  intros H.
  destruct (first_offender _ _ _ H) as (pre & it & post & Hcart & Hpre & Hit).
  exists pre, it, post. repeat split; try done.
  unfold CheckoutService.checkout.
  rewrite (bind_returns _ _ w (cart w) w) by done.
  rewrite Hcart.
  by rewrite (bind_raises _ _ _ _ _ (validation_fails _ pre it post w Hpre Hit)).
Qed.

(** The world of the atomicity test: the second line asks for five of a
    product that has two in stock. *)
Lemma checkout_fails_atomically_witness :
  let product n := mk_Product n n (Some "Dairy") (Some (Float.lit 1000 100)) true in
  let products_map : gmap string Product := {[ "A" := product "A"; "B" := product "B" ]} in
  let w := mk_world (λ _, mk_datetime 2025 11 3 (mk_time 9 0 0 0)) 0
             {[ "orders.json" := Holds (PList []) ]}
             [mk_CartItem "A" 1; mk_CartItem "B" 5]
             {[ "A" := 3; "B" := 2 ]} in
  Exists (offends products_map (inventory w)) (cart w) ∧
  ∃ pre it post,
    cart w = pre ++ it :: post ∧
    Forall (λ x, ¬ offends products_map (inventory w) x) pre ∧
    offends products_map (inventory w) it ∧
    CheckoutService.checkout (CheckoutService.new (example_engine ∅))
      products_map "REGULAR" w
      = (Raises (validation_error products_map it), w).
Proof.
  intros product products_map w.
  assert (Exists (offends products_map (inventory w)) (cart w)) as H.
  { apply Exists_cons_tl, Exists_cons_hd. right. vm_compute. reflexivity. }
  split; [exact H|].
  exact (checkout_fails_atomically (CheckoutService.new (example_engine ∅))
           products_map "REGULAR" w H).
Defined.

(** The atomicity test itself: the error names the second line, and the
    world is untouched. *)
Example checkout_insufficient_second_line :
  let product n := mk_Product n n (Some "Dairy") (Some (Float.lit 1000 100)) true in
  let products_map : gmap string Product := {[ "A" := product "A"; "B" := product "B" ]} in
  let w := mk_world (λ _, mk_datetime 2025 11 3 (mk_time 9 0 0 0)) 0
             {[ "orders.json" := Holds (PList []) ]}
             [mk_CartItem "A" 1; mk_CartItem "B" 5]
             {[ "A" := 3; "B" := 2 ]} in
  CheckoutService.checkout (CheckoutService.new (example_engine ∅))
    products_map "REGULAR" w
  = (Raises (InsufficientStock "B"), w).
Proof. vm_compute. reflexivity. Qed.

(** ** Checkout: the repository and the later phases *)

Lemma get_orders_spec w :
  DataRepository.get_orders w = (Returns (order_history w), w).
Proof.
  unfold DataRepository.get_orders, DataRepository._read_json, order_history.
  run. destruct (files w !! "orders.json") as [[| |[]]|]; reflexivity.
Qed.

Lemma float_of_qty_converts z w :
  converts z →
  CheckoutService.float_of_qty z w = (Returns (Float.of_int z), w).
Proof.
  unfold converts, CheckoutService.float_of_qty.
  by destruct (Float.of_int z).
Qed.

Lemma float_of_qty_world z w r w' :
  CheckoutService.float_of_qty z w = (r, w') → w' = w.
Proof.
  unfold CheckoutService.float_of_qty.
  destruct (Float.of_int z); run; congruence.
Qed.

Lemma same_store_refl w : same_store w w.
Proof. done. Qed.

Lemma same_store_trans w1 w2 w3 :
  same_store w1 w2 → same_store w2 w3 → same_store w1 w3.
Proof. unfold same_store. intros (-> & -> & ->) (-> & -> & ->). done. Qed.

Section Frame.

Context (self : CheckoutService.t).
Hypothesis rules_keep_store :
  Forall keeps_store (PricingService.rules (CheckoutService.pricing self)).

Lemma run_rules_keeps_store rs sku product qty price context w :
  Forall keeps_store rs →
  same_store w (snd (PricingService.run_rules rs sku product qty price context w)).
Proof.
  intros Hrs. revert price w.
  induction Hrs as [|r rs Hr _ IH]; intros price w; [done|].
  rewrite run_rules_cons. specialize (Hr sku product qty price context w).
  destruct (apply_rule r sku product qty price context w) as [[q|e] w1];
    simpl in Hr; [|done].
  eapply same_store_trans; [exact Hr | apply IH].
Qed.

Lemma price_item_keeps_store sku product qty price context w :
  same_store w (snd (PricingService.price_item (CheckoutService.pricing self)
                       sku product qty price context w)).
Proof.
  unfold PricingService.price_item.
  pose proof (run_rules_keeps_store
                (PricingService.rules (CheckoutService.pricing self))
                sku product qty price
                (default (mk_Context None None) context) w rules_keep_store) as H.
  unfold mbind, M_bind.
  by destruct (PricingService.run_rules _ _ _ _ _ _ _) as [[p|e] w1].
Qed.

Lemma price_lines_keeps_store products_map tier its acc total w :
  same_store w (snd (CheckoutService.price_lines self products_map tier its
                       acc total w)).
Proof.
  revert acc total w. induction its as [|it its IH]; intros acc total w; [done|].
  simpl. destruct (products_map !! sku it) as [product|]; [|done].
  destruct (p_price product) as [base|]; [|done].
  unfold mbind at 1, M_bind at 1.
  pose proof (price_item_keeps_store (sku it) product (qty it) base
                (Some (mk_Context (Some tier) None)) w) as H1.
  destruct (PricingService.price_item _ _ _ _ _ _ _) as [[u|e] w1];
    simpl in H1; [|done].
  unfold mbind at 1, M_bind at 1.
  destruct (CheckoutService.float_of_qty (qty it) w1) as [[q|e] w2] eqn:Eq;
    apply float_of_qty_world in Eq as ->; [|done].
  eapply same_store_trans; [exact H1 | apply IH].
Qed.

End Frame.

Lemma deduct_keeps_files its w r w' :
  for_each its CheckoutService.deduct w = (r, w') →
  files w' = files w ∧ cart w' = cart w ∧ ticks w' = ticks w ∧ clock w' = clock w.
Proof.
  revert w. induction its as [|it its IH]; intros w; simpl.
  - run. by intros [= <- <-].
  - unfold mbind at 1, M_bind at 1.
    destruct (CheckoutService.deduct it w) as [[[]|e] w1] eqn:E.
    + intros H. apply IH in H as (-> & -> & -> & ->).
      revert E. unfold CheckoutService.deduct. run.
      destruct (inventory w !! sku it); by intros [= <-].
    + intros [= <- <-]. revert E. unfold CheckoutService.deduct. run.
      destruct (inventory w !! sku it); intros [=]; by subst.
Qed.

Lemma persist_spec order_items total w :
  persist order_items total w =
  (Returns (persisted_order order_items total w),
   persisted_world (persisted_order order_items total w) w).
Proof.
  unfold persist.
  rewrite (bind_returns _ _ _ _ _ (get_orders_spec w)).
  reflexivity.
Qed.

Lemma checkout_phases self products_map tier w :
  CheckoutService.checkout self products_map tier w =
  match for_each (cart w) (CheckoutService.validate products_map) w with
  | (Raises e, w0) => (Raises e, w0)
  | (Returns _, w0) =>
      match CheckoutService.price_lines self products_map tier (cart w0) []
              Float.zero w0 with
      | (Raises e, w1) => (Raises e, w1)
      | (Returns (order_items, total), w1) =>
          match for_each (cart w1) CheckoutService.deduct w1 with
          | (Raises e, w2) => (Raises e, w2)
          | (Returns _, w2) => persist order_items (Float.round2 total) w2
          end
      end
  end.
Proof.
  unfold CheckoutService.checkout, persist. run.
  destruct (for_each (cart w) _ w) as [[[]|e] w0]; [|done].
  destruct (CheckoutService.price_lines _ _ _ _ _ _ _) as [[[order_items total]|e] w1];
    [|done].
  by destruct (for_each (cart w1) _ w1) as [[[]|e] w2].
Qed.

Lemma order_history_persisted o w :
  order_history (persisted_world o w)
  = order_history w ++ [CheckoutService.order_record o].
Proof.
  unfold order_history at 1, persisted_world. simpl.
  rewrite lookup_insert_ne by done. by rewrite lookup_insert_eq.
Qed.

(** ** Checkout: commit, order ids and order lines *)

(** C10: checking out an empty cart does not fail.  It returns an order
    with no lines and total 0.0 under the next sequential id; the record
    it appends to the order history holds that id, the time stamp, an
    empty list of items and the total 0.0; it saves the unchanged
    inventory, and leaves the cart empty. *)
Theorem checkout_empty_cart (self : CheckoutService.t)
    (products_map : gmap string Product) (membership_tier : string) (w : world) :
  cart w = [] →
  let next_id := "ORD-" +:+ zfill 6 (length (order_history w) + 1) in
  let stamp := clock w (ticks w) in
  let order := mk_Order next_id stamp [] (S754_zero false) in
  let record : pyval :=
    PDict {[ "order_id" := PStr next_id;
             "created_at" := PStr (isoformat stamp);
             "items" := PList [];
             "total" := PFloat (S754_zero false) ]} in
  ∃ w',
    CheckoutService.checkout self products_map membership_tier w
      = (Returns order, w') ∧
    files w' !! "orders.json" = Some (Holds (PList (order_history w ++ [record]))) ∧
    order_history w' = order_history w ++ [record] ∧
    files w' !! "inventory.json" = Some (Holds (PDict (PInt <$> inventory w))) ∧
    inventory w' = inventory w ∧
    cart w' = [].
Proof.
  intros Hcart next_id stamp order record.
  exists (persisted_world order w).
  rewrite checkout_phases, Hcart. cbn [for_each mret M_ret]. rewrite Hcart.
  cbn [CheckoutService.price_lines for_each mret M_ret]. rewrite Hcart.
  cbn [for_each mret M_ret].
  rewrite persist_spec. split_and!; try done.
  - unfold persisted_world. cbn [files].
    rewrite lookup_insert_ne by done. by rewrite lookup_insert_eq.
  - apply order_history_persisted.
  - unfold persisted_world. simpl. by rewrite lookup_insert_eq.
Qed.

(** An empty cart over a history of one earlier order. *)
Lemma checkout_empty_cart_witness :
  let w := mk_world (λ _, mk_datetime 2025 11 3 (mk_time 9 0 0 0)) 0
             {[ "orders.json" := Holds (PList [PDict ∅]) ]} [] {[ "A" := 3 ]} in
  let order := mk_Order "ORD-000002" (mk_datetime 2025 11 3 (mk_time 9 0 0 0))
                 [] (S754_zero false) in
  let record : pyval :=
    PDict {[ "order_id" := PStr "ORD-000002";
             "created_at" := PStr "2025-11-03T09:00:00";
             "items" := PList [];
             "total" := PFloat (S754_zero false) ]} in
  cart w = [] ∧
  ∃ w',
    CheckoutService.checkout (CheckoutService.new (example_engine ∅)) ∅ "REGULAR" w
      = (Returns order, w') ∧
    files w' !! "orders.json" = Some (Holds (PList ([PDict ∅] ++ [record]))) ∧
    order_history w' = [PDict ∅] ++ [record] ∧
    files w' !! "inventory.json" = Some (Holds (PDict {[ "A" := PInt 3 ]})) ∧
    inventory w' = inventory w ∧
    cart w' = [].
Proof.
  intros w order record. split; [reflexivity|].
  exact (checkout_empty_cart (CheckoutService.new (example_engine ∅)) ∅
           "REGULAR" w eq_refl).
Defined.

Lemma standard_keeps_store r : standard r → keeps_store r.
Proof.
  destruct 1 as [r|r|r|r]; intros sku product qty price context w;
    simpl; unfold apply.
  - unfold category_rule, CategoryDiscountRule.apply.
    by destruct (_ !! _).
  - unfold time_rule, TimeDiscountRule.apply. run.
    by destruct (_ && _)%bool.
  - unfold membership_rule, MembershipDiscountRule.apply.
    by destruct (_ !! _).
  - unfold bulk_rule, BulkQuantityRule.apply.
    by destruct (decide _).
Qed.

Lemma example_engine_standard tiers :
  Forall standard (PricingService.rules (example_engine tiers)).
Proof. repeat constructor. Qed.

Lemma order_history_same_files w w' :
  files w' = files w → order_history w' = order_history w.
Proof. unfold order_history. by intros ->. Qed.

Lemma validation_world products_map its w r w' :
  for_each its (CheckoutService.validate products_map) w = (r, w') → w' = w.
Proof.
  induction its as [|it its IH]; simpl.
  - run. congruence.
  - destruct (offends_dec products_map (inventory w) it) as [H|H].
    + rewrite (bind_raises _ _ _ _ _ (validate_fails _ it w H)). congruence.
    + by rewrite (bind_returns _ _ _ _ _ (validate_passes _ it w H)).
Qed.

(** C5: a checkout that returns gives its order the id ["ORD-"] followed
    by the six-digit zero-padded count of the orders persisted before the
    call plus one, and appends that order to the history (so the next
    checkout gets the next number). *)
Theorem checkout_order_id (self : CheckoutService.t)
    (products_map : gmap string Product) (membership_tier : string)
    (w w' : world) (o : Order) :
  Forall keeps_store (PricingService.rules (CheckoutService.pricing self)) →
  CheckoutService.checkout self products_map membership_tier w = (Returns o, w') →
  order_id o = "ORD-" +:+ zfill 6 (length (order_history w) + 1) ∧
  order_history w' = order_history w ++ [CheckoutService.order_record o].
Proof.
  intros Hrules. rewrite checkout_phases.
  destruct (for_each (cart w) _ w) as [[[]|e] w0] eqn:E0; [|done].
  apply validation_world in E0 as ->.
  pose proof (price_lines_keeps_store self Hrules products_map membership_tier
                (cart w) [] Float.zero w) as H1.
  destruct (CheckoutService.price_lines _ _ _ _ _ _ _)
    as [[[order_items total]|e] w1]; [|done].
  destruct H1 as (Hfiles1 & _ & _). simpl in Hfiles1.
  destruct (for_each (cart w1) _ w1) as [[[]|e] w2] eqn:E2; [|done].
  apply deduct_keeps_files in E2 as (Hfiles2 & _).
  rewrite persist_spec. intros [= <- <-].
  rewrite order_history_persisted.
  assert (order_history w2 = order_history w) as H.
  { apply order_history_same_files. congruence. }
  split; [simpl|]; by rewrite H.
Qed.

(** Two checkouts in a row from an empty history. *)
Lemma checkout_order_id_witness :
  let product := mk_Product "A" "Milk" (Some "Dairy") (Some (Float.lit 1000 100)) true in
  let products_map : gmap string Product := {[ "A" := product ]} in
  let self := CheckoutService.new (example_engine ∅) in
  let w := mk_world (λ _, mk_datetime 2025 11 3 (mk_time 9 0 0 0)) 0 ∅
             [mk_CartItem "A" 1] {[ "A" := 5 ]} in
  ∃ o1 w1 o2 w2,
    CheckoutService.checkout self products_map "REGULAR" w = (Returns o1, w1) ∧
    order_id o1 = "ORD-000001" ∧
    (Cart.add "A" 2;; CheckoutService.checkout self products_map "REGULAR") w1
      = (Returns o2, w2) ∧
    order_id o2 = "ORD-000002".
Proof.
  intros product products_map self w.
  assert (Forall keeps_store (PricingService.rules (CheckoutService.pricing self)))
    as Hrules.
  { eapply Forall_impl; [apply example_engine_standard | apply standard_keeps_store]. }
  pose (blank := mk_Order "" (clock w 0%nat) [] Float.zero).
  pose (pick := λ r : outcome Order * world,
          match fst r with Returns o => o | Raises _ => blank end).
  pose (r1 := CheckoutService.checkout self products_map "REGULAR" w).
  pose (w1' := set_cart (cart (snd r1) ++ [mk_CartItem "A" 2]) (snd r1)).
  pose (r2 := CheckoutService.checkout self products_map "REGULAR" w1').
  assert (CheckoutService.checkout self products_map "REGULAR" w
          = (Returns (pick r1), snd r1)) as E1 by (vm_compute; reflexivity).
  assert (CheckoutService.checkout self products_map "REGULAR" w1'
          = (Returns (pick r2), snd r2)) as E2 by (vm_compute; reflexivity).
  exists (pick r1), (snd r1), (pick r2), (snd r2). split_and!.
  - exact E1.
  - rewrite (proj1 (checkout_order_id _ _ _ _ _ _ Hrules E1)).
    vm_compute. reflexivity.
  - assert (Cart.add "A" 2 (snd r1) = (Returns tt, w1')) as Eadd by reflexivity.
    rewrite (bind_returns _ _ _ _ _ Eadd). exact E2.
  - rewrite (proj1 (checkout_order_id _ _ _ _ _ _ Hrules E2)).
    vm_compute. reflexivity.
Defined.

(** ** Checkout: pricing the lines *)

Section StandardEngine.

Context (self : CheckoutService.t).
Hypothesis rules_standard :
  Forall standard (PricingService.rules (CheckoutService.pricing self)).

Lemma standard_run_rules rs sku product qty price context w :
  Forall standard rs →
  ∃ p w', PricingService.run_rules rs sku product qty price context w
            = (Returns p, w') ∧ same_store w w'.
Proof.
  intros Hrs. revert price w.
  induction Hrs as [|r rs Hr _ IH]; intros price w.
  - by exists price, w.
  - rewrite run_rules_cons.
    destruct (standard_apply sku product qty context r price w Hr)
      as (q & w1 & E & _).
    pose proof (standard_keeps_store r Hr sku product qty price context w) as K.
    rewrite E in K |- *. simpl in K.
    destruct (IH (PricingService.clamp q) w1) as (p & w2 & E2 & K2).
    exists p, w2. split; [done|]. by eapply same_store_trans.
Qed.

Lemma standard_price_item sku product qty price context w :
  ∃ u w', PricingService.price_item (CheckoutService.pricing self)
            sku product qty price context w = (Returns u, w') ∧
          same_store w w'.
Proof.
  unfold PricingService.price_item.
  destruct (standard_run_rules
              (PricingService.rules (CheckoutService.pricing self))
              sku product qty price (default (mk_Context None None) context) w
              rules_standard) as (p & w' & E & K).
  exists (Float.round2 p), w'. split; [|done].
  by rewrite (bind_returns _ _ _ _ _ E).
Qed.

End StandardEngine.

Lemma price_lines_cons self products_map tier it rest acc total w product base u w1 :
  products_map !! sku it = Some product →
  p_price product = Some base →
  PricingService.price_item (CheckoutService.pricing self) (sku it) product
    (qty it) base (Some (mk_Context (Some tier) None)) w = (Returns u, w1) →
  converts (qty it) →
  let subtotal := Float.round2 (Float.mul u (Float.of_int (qty it))) in
  CheckoutService.price_lines self products_map tier (it :: rest) acc total w =
  CheckoutService.price_lines self products_map tier rest
    (acc ++ [mk_OrderItem (sku it) (qty it) u subtotal])
    (Float.add total subtotal) w1.
Proof.
  intros Hp Hb Hu Hq subtotal. cbn [CheckoutService.price_lines].
  rewrite Hp, Hb, (bind_returns _ _ _ _ _ Hu).
  by rewrite (bind_returns _ _ _ _ _ (float_of_qty_converts _ w1 Hq)).
Qed.

Lemma deduct_present it w have :
  inventory w !! sku it = Some have →
  CheckoutService.deduct it w =
  (Returns tt, set_inventory (<[sku it := have - qty it]> (inventory w)) w).
Proof. intros H. unfold CheckoutService.deduct. run. by rewrite H. Qed.

(** C7: adding the same SKU twice to an empty cart gives two cart entries
    in insertion order, and checking that cart out gives two order lines,
    each with the unit price that [price_item] returns for its own
    quantity and the rounded product of that price and quantity as
    subtotal; the order total is the rounding of the running sum of the
    two subtotals. *)
Theorem duplicate_sku_lines (self : CheckoutService.t)
    (products_map : gmap string Product) (membership_tier : string) (w : world)
    (a : string) (q1 q2 : Z) (product : Product) (base : float) (have : Z) :
  Forall standard (PricingService.rules (CheckoutService.pricing self)) →
  cart w = [] →
  0 < q1 → 0 < q2 →
  products_map !! a = Some product →
  p_price product = Some base →
  inventory w !! a = Some have →
  q1 ≤ have → q2 ≤ have →
  converts q1 → converts q2 →
  ∃ wc,
    (Cart.add a q1;; Cart.add a q2) w = (Returns tt, wc) ∧
    cart wc = [mk_CartItem a q1; mk_CartItem a q2] ∧
    ∃ u1 w1 u2 w2 o w',
      let context := Some (mk_Context (Some membership_tier) None) in
      let s1 := Float.round2 (Float.mul u1 (Float.of_int q1)) in
      let s2 := Float.round2 (Float.mul u2 (Float.of_int q2)) in
      PricingService.price_item (CheckoutService.pricing self) a product q1
        base context wc = (Returns u1, w1) ∧
      PricingService.price_item (CheckoutService.pricing self) a product q2
        base context w1 = (Returns u2, w2) ∧
      CheckoutService.checkout self products_map membership_tier wc
        = (Returns o, w') ∧
      items o = [mk_OrderItem a q1 u1 s1; mk_OrderItem a q2 u2 s2] ∧
      total o = Float.round2 (Float.add (Float.add Float.zero s1) s2).
Proof.
  intros Hstd Hcart Hq1 Hq2 Hp Hb Hinv Hle1 Hle2 Hc1 Hc2.
  set (i1 := mk_CartItem a q1). set (i2 := mk_CartItem a q2).
  set (wc := set_cart [i1; i2] w).
  assert ((Cart.add a q1;; Cart.add a q2) w = (Returns tt, wc)) as Eadd.
  { unfold Cart.add. rewrite !decide_False by lia. run.
    by rewrite Hcart. }
  exists wc. split; [exact Eadd|]. split; [done|].
  set (context := Some (mk_Context (Some membership_tier) None)).
  destruct (standard_price_item self Hstd a product q1 base context wc)
    as (u1 & w1 & E1 & K1).
  destruct (standard_price_item self Hstd a product q2 base context w1)
    as (u2 & w2 & E2 & K2).
  pose proof (same_store_trans _ _ _ K1 K2) as (Hf2 & Hcart2 & Hinv2).
  set (s1 := Float.round2 (Float.mul u1 (Float.of_int q1))).
  set (s2 := Float.round2 (Float.mul u2 (Float.of_int q2))).
  set (lines := [mk_OrderItem a q1 u1 s1; mk_OrderItem a q2 u2 s2]).
  set (tot := Float.round2 (Float.add (Float.add Float.zero s1) s2)).
  set (w3 := set_inventory (<[a := have - q1 - q2]> (<[a := have - q1]> (inventory w2))) w2).
  exists u1, w1, u2, w2, (persisted_order lines tot w3),
    (persisted_world (persisted_order lines tot w3) w3).
  split_and!; try done.
  rewrite checkout_phases.
  assert (for_each (cart wc) (CheckoutService.validate products_map) wc
          = (Returns tt, wc)) as ->.
  { apply validation_passes. repeat constructor;
      intros [H|H]; simpl in H; rewrite ?Hp, ?Hinv in H; simpl in H;
      (discriminate || lia). }
  change (cart wc) with [i1; i2].
  rewrite (price_lines_cons self products_map membership_tier i1 [i2] []
             Float.zero wc product base u1 w1 Hp Hb E1 Hc1).
  rewrite (price_lines_cons self products_map membership_tier i2 [] _ _
             w1 product base u2 w2 Hp Hb E2 Hc2).
  cbn [CheckoutService.price_lines mret M_ret app sku qty i1 i2].
  rewrite Hcart2. change (cart wc) with [i1; i2].
  cbn [for_each].
  assert (inventory w2 !! sku i1 = Some have) as Hhave
    by (rewrite Hinv2; exact Hinv).
  rewrite (bind_returns _ _ _ _ _ (deduct_present i1 w2 have Hhave)).
  assert (inventory (set_inventory (<[sku i1 := have - qty i1]> (inventory w2)) w2)
            !! sku i2 = Some (have - q1)) as Hhave2
    by (simpl; apply lookup_insert_eq).
  rewrite (bind_returns _ _ _ _ _ (deduct_present i2 _ _ Hhave2)).
  cbn [mret M_ret]. rewrite persist_spec. reflexivity.
Qed.


(** SKU "A" at 10.00, two then three units, outside happy hour: the first
    line is priced at 9.00 without the bulk discount, the second at 8.55
    with it, and the total is 18.00 + 25.65 = 43.65; one merged line of
    five units at 8.55 would have come to 42.75. *)
Lemma duplicate_sku_lines_witness :
  let product := mk_Product "A" "Milk" (Some "Dairy") (Some (Float.lit 1000 100)) true in
  let products_map : gmap string Product := {[ "A" := product ]} in
  let self := CheckoutService.new (example_engine ∅) in
  let w := mk_world (λ _, mk_datetime 2025 11 3 (mk_time 9 0 0 0)) 0 ∅ []
             {[ "A" := 10 ]} in
  ∃ wc o w',
    (Cart.add "A" 2;; Cart.add "A" 3) w = (Returns tt, wc) ∧
    CheckoutService.checkout self products_map "REGULAR" wc = (Returns o, w') ∧
    items o =
      [mk_OrderItem "A" 2 (Float.lit 900 100) (Float.lit 1800 100);
       mk_OrderItem "A" 3 (Float.lit 855 100) (Float.lit 2565 100)] ∧
    total o = Float.lit 4365 100 ∧
    Float.round2 (Float.mul (Float.lit 855 100) (Float.of_int 5))
      = Float.lit 4275 100.
Proof.
  intros product products_map self w.
  assert (converts 2) as Hc2 by (vm_compute; exact I).
  assert (converts 3) as Hc3 by (vm_compute; exact I).
  assert (products_map !! "A" = Some product) as Hp by (vm_compute; reflexivity).
  assert (inventory w !! "A" = Some 10) as Hinv by (vm_compute; reflexivity).
  destruct (duplicate_sku_lines self products_map "REGULAR" w "A" 2 3 product
              (Float.lit 1000 100) 10 (example_engine_standard ∅) eq_refl
              ltac:(lia) ltac:(lia) Hp eq_refl Hinv ltac:(lia) ltac:(lia) Hc2 Hc3)
    as (wc & Eadd & Hcart & u1 & w1 & u2 & w2 & o & w' & E1 & E2 & Eco & Hitems & Htotal).
  exists wc, o, w'.
  assert (wc = set_cart [mk_CartItem "A" 2; mk_CartItem "A" 3] w) as Hwc.
  { revert Eadd. vm_compute. intros [= <-]. reflexivity. }
  rewrite Hwc in E1.
  vm_compute in E1. injection E1 as <- <-.
  vm_compute in E2. injection E2 as <- _.
  split; [exact Eadd|]. split; [exact Eco|]. split; [|split].
  - rewrite Hitems. vm_compute. reflexivity.
  - rewrite Htotal. vm_compute. reflexivity.
  - vm_compute. reflexivity.
Defined.

(** ** Promotions *)

Lemma get_promotions_returns w :
  DataRepository.get_promotions w = (Returns (promotions_config w), w).
Proof.
  unfold DataRepository.get_promotions, DataRepository._read_json,
    promotions_config, stored_promotions. run.
  destruct (files w !! "promotions.json") as [[| |[]]|]; reflexivity.
Qed.

Lemma promotions_config_happy_hour w :
  promotions_config w !! "happy_hour"
  = Some (default DataRepository.default_happy_hour
            (stored_promotions w !! "happy_hour")).
Proof.
  unfold promotions_config.
  rewrite lookup_insert_ne by done. by rewrite lookup_insert_eq.
Qed.

(** C9, as amended: [get_promotions] always returns, changes nothing, and
    gives a config with exactly the keys [category_discounts],
    [happy_hour] and [bulk]; each component is the stored one when the
    store holds a JSON object with that key, whatever its shape, and the
    fixed default (the empty category map; start 17:00, end 18:00, rate
    0.05; threshold 3, rate 0.05) when the key is missing; when the file
    is missing, blank, corrupt or not a JSON object, the config is the
    three defaults. *)
Theorem get_promotions_spec (w : world) :
  let no_categories : pyval := PDict ∅ in
  let happy_hour : pyval :=
    PDict {[ "start" := PStr "17:00"; "end" := PStr "18:00";
             "rate" := PFloat (Float.lit 5 100) ]} in
  let bulk : pyval :=
    PDict {[ "threshold" := PInt 3; "rate" := PFloat (Float.lit 5 100) ]} in
  ∃ cfg,
    DataRepository.get_promotions w = (Returns cfg, w) ∧
    dom cfg = ({[ "category_discounts"; "happy_hour"; "bulk" ]} : gset string) ∧
    cfg !! "category_discounts"
      = Some (default no_categories (stored_promotions w !! "category_discounts")) ∧
    cfg !! "happy_hour"
      = Some (default happy_hour (stored_promotions w !! "happy_hour")) ∧
    cfg !! "bulk"
      = Some (default bulk (stored_promotions w !! "bulk")) ∧
    match files w !! "promotions.json" with
    | Some (Holds (PDict _)) => True
    | _ =>
        cfg = {[ "category_discounts" := no_categories;
                 "happy_hour" := happy_hour; "bulk" := bulk ]}
    end.
Proof.
  intros no_categories happy_hour bulk.
  exists (promotions_config w). split; [apply get_promotions_returns|].
  split; [|split_and!].
  - unfold promotions_config. rewrite !dom_insert_L, dom_singleton_L. set_solver.
  - unfold promotions_config. by rewrite lookup_insert_eq.
  - apply promotions_config_happy_hour.
  - unfold promotions_config.
    rewrite lookup_insert_ne by done. rewrite lookup_insert_ne by done.
    by rewrite lookup_singleton_eq.
  - unfold promotions_config, stored_promotions.
    destruct (files w !! "promotions.json") as [[| |[]]|]; try exact I;
      reflexivity.
Qed.

(** C9, refuted as stated: a stored [happy_hour] of 42 is returned as 42,
    not replaced by the default window. *)
Lemma malformed_component_is_kept :
  ¬ promotions_default_when_missing_or_malformed.
Proof.
  intros literal.
  pose (w := mk_world (λ _, mk_datetime 2025 1 1 (mk_time 9 0 0 0)) 0
               {[ "promotions.json" := Holds (PDict {[ "happy_hour" := PInt 42 ]}) ]}
               [] ∅).
  assert (stored_promotions w !! "happy_hour" = Some (PInt 42)) as Hstored
    by (vm_compute; reflexivity).
  destruct (literal w "happy_hour") as (cfg & E & Hcfg).
  - set_solver.
  - rewrite Hstored. exact I.
  - rewrite get_promotions_returns in E. injection E as <-.
    rewrite promotions_config_happy_hour, Hstored in Hcfg.
    simpl in Hcfg. unfold default_of in Hcfg. simpl in Hcfg.
    unfold DataRepository.default_happy_hour in Hcfg. discriminate.
Qed.

(** ** Stock after a committed checkout *)

(** C1, at its failing input: with three units of "A" in stock and a cart
    of two lines of two units of "A" each, every line passes validation
    against the snapshot, the checkout commits, and the inventory it
    leaves and saves holds -1 for "A". *)
Theorem checkout_oversells_duplicate_lines :
  let product := mk_Product "A" "Milk" (Some "Dairy") (Some (Float.lit 1000 100)) true in
  let products_map : gmap string Product := {[ "A" := product ]} in
  let self := CheckoutService.new (example_engine ∅) in
  let w := mk_world (λ _, mk_datetime 2025 11 3 (mk_time 9 0 0 0)) 0 ∅
             [mk_CartItem "A" 2; mk_CartItem "A" 2] {[ "A" := 3 ]} in
  let result := CheckoutService.checkout self products_map "REGULAR" w in
  Forall (λ it, ¬ offends products_map (inventory w) it) (cart w) ∧
  order_id <$> returned result = Some "ORD-000001" ∧
  inventory (snd result) !! "A" = Some (-1) ∧
  files (snd result) !! "inventory.json"
    = Some (Holds (PDict {[ "A" := PInt (-1) ]})).
Proof.
  intros product products_map self w result. split_and!.
  - repeat constructor; intros [H|H]; vm_compute in H; discriminate.
  - vm_compute. reflexivity.
  - vm_compute. reflexivity.
  - vm_compute. reflexivity.
Qed.

(** The sibling path [Inventory.reduce_stock] checks the stock that is
    left at each deduction, and refuses the second one. *)
Example reduce_stock_refuses_second_deduction :
  Inventory.reduce_stock {[ "A" := 3 ]} "A" 2 = Returns {[ "A" := 1 ]} ∧
  Inventory.reduce_stock {[ "A" := 1 ]} "A" 2
    = Raises (ValueError "Insufficient stock").
Proof. split; vm_compute; reflexivity. Qed.

(** What validation does establish: when no two lines of the cart share a
    SKU, a checkout that commits leaves no negative quantity. *)

Lemma validation_returns_inv products_map its w w' :
  for_each its (CheckoutService.validate products_map) w = (Returns tt, w') →
  Forall (λ it, ¬ offends products_map (inventory w) it) its.
Proof.
  induction its as [|it its IH]; [by constructor|]. simpl.
  destruct (offends_dec products_map (inventory w) it) as [H|H].
  - by rewrite (bind_raises _ _ _ _ _ (validate_fails _ it w H)).
  - rewrite (bind_returns _ _ _ _ _ (validate_passes _ it w H)).
    intros E. constructor; [done | by apply IH].
Qed.

Lemma deduct_distinct_nonnegative its w w' :
  NoDup (sku <$> its) →
  Forall (λ it, qty it ≤ default 0 (inventory w !! sku it)) its →
  map_Forall (λ _ v, 0 ≤ v) (inventory w) →
  for_each its CheckoutService.deduct w = (Returns tt, w') →
  map_Forall (λ _ v, 0 ≤ v) (inventory w').
Proof.
  revert w. induction its as [|it its IH]; intros w Hnd Hok Hpos; simpl.
  - run. by intros [= <-].
  - apply NoDup_cons in Hnd as [Hnotin Hnd].
    apply Forall_cons in Hok as [Hit Hok].
    destruct (inventory w !! sku it) as [have|] eqn:Hhave.
    + rewrite (bind_returns _ _ _ _ _ (deduct_present it w have Hhave)).
      apply IH; [done| |].
      * apply Forall_forall. intros x Hx. simpl.
        rewrite lookup_insert_ne.
        { by apply (proj1 (Forall_forall _ _) Hok). }
        intros Heq. apply Hnotin. rewrite Heq.
        by apply list_elem_of_fmap_2.
      * simpl. apply map_Forall_insert_2; [|done].
        simpl in Hit. lia.
    + unfold CheckoutService.deduct. run. by rewrite Hhave.
Qed.

Lemma distinct_lines_keep_stock_nonnegative (self : CheckoutService.t)
    (products_map : gmap string Product) (membership_tier : string)
    (w w' : world) (o : Order) :
  Forall keeps_store (PricingService.rules (CheckoutService.pricing self)) →
  NoDup (sku <$> cart w) →
  map_Forall (λ _ v, 0 ≤ v) (inventory w) →
  CheckoutService.checkout self products_map membership_tier w = (Returns o, w') →
  map_Forall (λ _ v, 0 ≤ v) (inventory w').
Proof.
  intros Hrules Hnd Hpos. rewrite checkout_phases.
  destruct (for_each (cart w) _ w) as [[[]|e] w0] eqn:E0; [|done].
  pose proof (validation_returns_inv _ _ _ _ E0) as Hok.
  apply validation_world in E0 as ->.
  pose proof (price_lines_keeps_store self Hrules products_map membership_tier
                (cart w) [] Float.zero w) as H1.
  destruct (CheckoutService.price_lines _ _ _ _ _ _ _)
    as [[[order_items total]|e] w1]; [|done].
  destruct H1 as (_ & Hcart1 & Hinv1). simpl in Hcart1, Hinv1.
  destruct (for_each (cart w1) _ w1) as [[[]|e] w2] eqn:E2; [|done].
  rewrite persist_spec. intros [= <- <-]. simpl.
  apply (deduct_distinct_nonnegative (cart w1) w1 w2); try done.
  - by rewrite Hcart1.
  - rewrite Hcart1, Hinv1. eapply Forall_impl; [exact Hok|].
    intros it Hit. simpl. unfold offends in Hit.
    destruct (decide (qty it ≤ default 0 (inventory w !! sku it))); [done|].
    destruct Hit. right. lia.
  - by rewrite Hinv1.
Qed.

(** * Further properties of the code *)

(** ** Signs of float results *)

Lemma round_aux_not_negative mx ex lx :
  not_negative (binary_round_aux Float.prec Float.emax false mx ex lx).
Proof.
  unfold not_negative, binary_round_aux.
  change (Float.of_int 0) with (S754_zero false).
  destruct (shr_fexp _ _ _ _ _) as [mrs' e'].
  destruct (shr_fexp _ _ _ _ _) as [mrs'' e''].
  destruct (shr_m mrs'') as [|m|m]; [reflexivity| |reflexivity].
  destruct (Z.leb _ _); reflexivity.
Qed.

Lemma not_negative_cases (p : float) :
  not_negative p ↔
  match p with
  | S754_infinity true | S754_finite true _ _ => False
  | _ => True
  end.
Proof.
  unfold not_negative. change (Float.of_int 0) with (S754_zero false).
  destruct p as [[]|[]| |[] m e]; cbv; intuition congruence.
Qed.

Lemma round2_not_negative (p : float) :
  not_negative p → not_negative (Float.round2 p).
Proof.
  destruct p as [s|s| |[] m e]; try (intros H; exact H).
  { intros H. by apply not_negative_cases in H. }
  intros _. unfold Float.round2.
    destruct (Float.hundredths m e) as [|n|n]; [reflexivity| |reflexivity].
    unfold Float.div, SFdiv.
    destruct (SFdiv_core_binary _ _ _ _ _ _) as [[mz ez] lz].
    apply round_aux_not_negative.
Qed.




(** ** Prices are never below zero *)

Lemma run_rules_not_negative rs sku product qty base context w p w' :
  rs ≠ [] ∨ not_negative base →
  PricingService.run_rules rs sku product qty base context w = (Returns p, w') →
  not_negative p.
Proof.
  revert base w. induction rs as [|r rs IH]; intros base w Hstart.
  - destruct Hstart as [|Hbase]; [done|]. cbn. by intros [= <- <-].
  - rewrite run_rules_cons.
    destruct (apply_rule r sku product qty base context w) as [[q|e] w1]; [|done].
    apply IH. right. apply clamp_not_negative.
Qed.

(** X1: whatever the rules are, a price that [price_item] returns is not
    below zero, provided the engine has at least one rule or the base
    price is itself not below zero. *)
Theorem price_item_not_negative (self : PricingService.t) sku product qty base
    context w u w' :
  PricingService.rules self ≠ [] ∨ not_negative base →
  PricingService.price_item self sku product qty base context w = (Returns u, w') →
  not_negative u.
Proof.
  intros Hstart. unfold PricingService.price_item, mbind, M_bind.
  destruct (PricingService.run_rules _ _ _ _ _ _ _) as [[p|e] w1] eqn:E; [|done].
  intros [= <- <-]. apply round2_not_negative.
  by eapply run_rules_not_negative.
Qed.

(** Under the example engine, whose category rule takes 10 percent off,
    a catalog price of -5.00 entered by mistake is priced at 0.0. *)
Lemma price_item_not_negative_witness :
  let product := mk_Product "A" "Milk" (Some "Dairy") (Some (Float.lit (-500) 100)) true in
  let w := mk_world (λ _, mk_datetime 2025 11 3 (mk_time 9 0 0 0)) 0 ∅ [] ∅ in
  let w' := set_ticks 1 w in
  PricingService.price_item (example_engine ∅) "A" product 1 (Float.lit (-500) 100)
    None w = (Returns Float.zero, w') ∧
  not_negative Float.zero.
Proof.
  intros product w w'.
  assert (PricingService.price_item (example_engine ∅) "A" product 1
            (Float.lit (-500) 100) None w = (Returns Float.zero, w')) as E
    by (vm_compute; reflexivity).
  split; [exact E|].
  refine (price_item_not_negative (example_engine ∅) "A" product 1
            (Float.lit (-500) 100) None w Float.zero w' _ E).
  left. discriminate.
Defined.

(** ** The happy-hour window *)

Lemma time_le_before (a b : time) : time_le a b = true ↔ time_before a b.
Proof.
  unfold time_le, time_before.
  repeat first [ rewrite orb_true_iff | rewrite andb_true_iff
               | rewrite Nat.ltb_lt | rewrite Nat.eqb_eq | rewrite Nat.leb_le ].
  reflexivity.
Qed.

Lemma time_before_refl (a : time) : time_before a a.
Proof. unfold time_before. lia. Qed.

Lemma time_before_trans (a b c : time) :
  time_before a b → time_before b c → time_before a c.
Proof. unfold time_before. lia. Qed.

Lemma time_rule_fires (self : TimeDiscountRule.t) sku product qty price context w :
  TimeDiscountRule.apply self sku product qty price context w =
  (Returns (if in_window (TimeDiscountRule.start_time self)
                 (TimeDiscountRule.end_time self)
                 (time_of (default (clock w (ticks w)) (now context)))
            then discounted price (TimeDiscountRule.rate self) else price),
   set_ticks (S (ticks w)) w).
Proof.
  unfold TimeDiscountRule.apply, in_window. run. by destruct (_ && _)%bool.
Qed.

(** X2: a window whose start is later than its end (an overnight window)
    never discounts: at every time of day and for every context the rule
    returns the price it was given. *)
Theorem overnight_window_never_discounts (self : TimeDiscountRule.t) sku product
    qty price context w :
  ¬ time_before (TimeDiscountRule.start_time self) (TimeDiscountRule.end_time self) →
  fst (TimeDiscountRule.apply self sku product qty price context w) = Returns price.
Proof.
  intros Hinv. rewrite time_rule_fires. cbn [fst].
  destruct (in_window _ _ _) eqn:E; [|done].
  destruct Hinv. unfold in_window in E.
  apply andb_true_iff in E as [E1 E2].
  apply time_le_before in E1, E2. by eapply time_before_trans.
Qed.

(** A window from 22:00 to 02:00, asked at 23:00. *)
Lemma overnight_window_never_discounts_witness :
  let self := TimeDiscountRule.new (mk_time 22 0 0 0) (mk_time 2 0 0 0) (Float.lit 5 100) in
  let product := mk_Product "A" "Milk" None (Some (Float.lit 1000 100)) true in
  let w := mk_world (λ _, mk_datetime 2025 11 3 (mk_time 23 0 0 0)) 0 ∅ [] ∅ in
  ¬ time_before (TimeDiscountRule.start_time self) (TimeDiscountRule.end_time self) ∧
  fst (TimeDiscountRule.apply self "A" product 1 (Float.lit 1000 100)
         (mk_Context None None) w) = Returns (Float.lit 1000 100).
Proof.
  intros self product w.
  assert (¬ time_before (TimeDiscountRule.start_time self)
              (TimeDiscountRule.end_time self)) as H
    by (unfold time_before; simpl; lia).
  split; [exact H|].
  exact (overnight_window_never_discounts self "A" product 1 (Float.lit 1000 100)
           (mk_Context None None) w H).
Defined.

(** X3: the window is closed at both ends: when the start is not later
    than the end, the rule discounts at exactly the start time and at
    exactly the end time, to the microsecond. *)
Theorem window_bounds_inclusive (self : TimeDiscountRule.t) sku product qty price
    (when : datetime) w :
  time_before (TimeDiscountRule.start_time self) (TimeDiscountRule.end_time self) →
  time_of when = TimeDiscountRule.start_time self ∨
  time_of when = TimeDiscountRule.end_time self →
  fst (TimeDiscountRule.apply self sku product qty price
         (mk_Context None (Some when)) w)
  = Returns (discounted price (TimeDiscountRule.rate self)).
Proof.
  intros Hwin Hat. rewrite time_rule_fires. cbn [fst].
  change (time_of (default _ (now (mk_Context None (Some when)))))
    with (time_of when).
  assert (in_window (TimeDiscountRule.start_time self)
            (TimeDiscountRule.end_time self) (time_of when) = true) as ->; [|done].
  unfold in_window. apply andb_true_iff.
  split; apply time_le_before; destruct Hat as [-> | ->];
    done || apply time_before_refl.
Qed.

(** The shipped window, asked at 18:00:00.000000. *)
Lemma window_bounds_inclusive_witness :
  let self := TimeDiscountRule.new (mk_time 17 0 0 0) (mk_time 18 0 0 0) (Float.lit 5 100) in
  let product := mk_Product "A" "Milk" None (Some (Float.lit 1000 100)) true in
  let when := mk_datetime 2025 11 3 (mk_time 18 0 0 0) in
  let w := mk_world (λ _, mk_datetime 2025 11 3 (mk_time 9 0 0 0)) 0 ∅ [] ∅ in
  fst (TimeDiscountRule.apply self "A" product 1 (Float.lit 1000 100)
         (mk_Context None (Some when)) w)
  = Returns (discounted (Float.lit 1000 100) (Float.lit 5 100)).
Proof.
  intros self product when w.
  refine (window_bounds_inclusive self "A" product 1 (Float.lit 1000 100) when w _ _).
  - unfold time_before; simpl; lia.
  - right. reflexivity.
Defined.

(** ** The clock override of the pricing context *)

Lemma standard_apply_same_price r sku product qty price context w1 w2 :
  standard r →
  is_Some (now context) →
  fst (apply_rule r sku product qty price context w1)
  = fst (apply_rule r sku product qty price context w2).
Proof.
  intros Hr [t Ht]. destruct Hr as [r|r|r|r]; simpl; unfold apply.
  - unfold category_rule, CategoryDiscountRule.apply.
    by destruct (_ !! _).
  - unfold time_rule. rewrite !time_rule_fires, Ht. reflexivity.
  - unfold membership_rule, MembershipDiscountRule.apply.
    by destruct (_ !! _).
  - unfold bulk_rule, BulkQuantityRule.apply.
    by destruct (decide _).
Qed.

Lemma standard_run_rules_same_price rs sku product qty price context w1 w2 :
  Forall standard rs →
  is_Some (now context) →
  fst (PricingService.run_rules rs sku product qty price context w1)
  = fst (PricingService.run_rules rs sku product qty price context w2).
Proof.
  intros Hrs Hnow. revert price w1 w2.
  induction Hrs as [|r rs Hr _ IH]; intros price w1 w2; [done|].
  rewrite !run_rules_cons.
  pose proof (standard_apply_same_price r sku product qty price context w1 w2
                Hr Hnow) as E.
  destruct (apply_rule r sku product qty price context w1) as [[q1|e1] w1'],
    (apply_rule r sku product qty price context w2) as [[q2|e2] w2'];
    simpl in E; try done.
  injection E as ->. apply IH.
Qed.

(** X4: when the context carries its own ["now"], the price that an
    engine of the shipped rules returns does not depend on the wall clock
    nor on anything else in the world: two runs in any two worlds give the
    same outcome. *)
Theorem price_item_clock_override (self : PricingService.t) sku product qty base
    (context : Context) (w1 w2 : world) :
  Forall standard (PricingService.rules self) →
  is_Some (now context) →
  fst (PricingService.price_item self sku product qty base (Some context) w1)
  = fst (PricingService.price_item self sku product qty base (Some context) w2).
Proof.
  intros Hrs Hnow. unfold PricingService.price_item, mbind, M_bind.
  pose proof (standard_run_rules_same_price (PricingService.rules self) sku
                product qty base (default (mk_Context None None) (Some context))
                w1 w2 Hrs Hnow) as E.
  destruct (PricingService.run_rules _ _ _ _ _ _ w1) as [[p1|e1] w1'],
    (PricingService.run_rules _ _ _ _ _ _ w2) as [[p2|e2] w2'];
    simpl in E; try done.
  by injection E as ->.
Qed.

(** The shipped engine at a fixed 17:30, under a morning and an evening
    clock. *)
Lemma price_item_clock_override_witness :
  let product := mk_Product "A" "Milk" (Some "Dairy") (Some (Float.lit 1000 100)) true in
  let context := mk_Context (Some "VIP") (Some (mk_datetime 2025 11 3 (mk_time 17 30 0 0))) in
  let morning := mk_world (λ _, mk_datetime 2025 11 3 (mk_time 9 0 0 0)) 0 ∅ [] ∅ in
  let evening := mk_world (λ _, mk_datetime 2025 11 3 (mk_time 21 0 0 0)) 7 ∅ [] ∅ in
  fst (PricingService.price_item (example_engine ∅) "A" product 3
         (Float.lit 1000 100) (Some context) morning)
  = fst (PricingService.price_item (example_engine ∅) "A" product 3
           (Float.lit 1000 100) (Some context) evening).
Proof.
  intros product context morning evening.
  apply price_item_clock_override.
  - apply example_engine_standard.
  - by eexists.
Defined.

(** ** Registration order *)

(** X5: a rule added with [add_rule] runs after the rules that were
    already registered: the engine with the new rule first runs the old
    rules on the base price, then gives their running price to the new
    rule, clamps what it returns and rounds; an exception of an old rule
    keeps the new rule from running. *)
Theorem add_rule_runs_last (self : PricingService.t) (r : rule) sku product qty
    base context w :
  PricingService.price_item (PricingService.add_rule self r) sku product qty
    base (Some context) w =
  match PricingService.run_rules (PricingService.rules self) sku product qty
          base context w with
  | (Returns p, w1) =>
      match apply_rule r sku product qty p context w1 with
      | (Returns q, w2) => (Returns (Float.round2 (PricingService.clamp q)), w2)
      | (Raises e, w2) => (Raises e, w2)
      end
  | (Raises e, w1) => (Raises e, w1)
  end.
Proof.
  unfold PricingService.price_item, PricingService.add_rule, mbind, M_bind.
  cbn [PricingService.rules].
  change (default (mk_Context None None) (Some context)) with context.
  rewrite run_rules_snoc.
  destruct (PricingService.run_rules _ _ _ _ _ _ _) as [[p|e] w1]; [|done].
  by destruct (apply_rule r sku product qty p context w1) as [[q|e] w2].
Qed.

(** ** Membership: tiers follow the spend *)

Lemma le_finite_pos m1 e1 m2 e2 :
  Float.le (S754_finite false m1 e1) (S754_finite false m2 e2) = true ↔
  e1 < e2 ∨ (e1 = e2 ∧ (m1 ≤ m2)%positive).
Proof.
  unfold Float.le, SFleb. simpl.
  change (Pos.compare_cont Eq m1 m2) with (m1 ?= m2)%positive.
  destruct (Z.compare_spec e1 e2); [destruct (Pos.compare_spec m1 m2)|..];
    split; try done; lia.
Qed.

(** A value at least a finite positive constant stays so when it grows. *)
Lemma ge_trans_pos (x y : float) m e :
  Float.le x y = true →
  Float.ge x (S754_finite false m e) = true →
  Float.ge y (S754_finite false m e) = true.
Proof.
  unfold Float.ge.
  destruct x as [[]|[]| |[] mx ex]; try done;
    destruct y as [[]|[]| |[] my ey]; try done.
  rewrite !le_finite_pos. lia.
Qed.

Lemma not_ge_lt (x : float) m e :
  x ≠ Float.nan →
  Float.ge x (S754_finite false m e) = false →
  Float.lt x (S754_finite false m e) = true.
Proof.
  intros Hx. unfold Float.ge, Float.lt, SFleb, SFltb.
  rewrite (compare_swap x (S754_finite false m e)).
  destruct (SFcompare x (S754_finite false m e)) as [[]|] eqn:E; try done.
  by destruct x as [[]|[]| |[] mx ex].
Qed.

(** X6: the tier never goes down when the lifetime spend goes up: for
    spends [x <= y] the tier of [y] ranks at least as high as the tier of
    [x] in the order REGULAR, SILVER, GOLD, VIP. *)
Theorem compute_tier_monotone (x y : float) :
  Float.le x y = true →
  (tier_rank (compute_tier x) ≤ tier_rank (compute_tier y))%nat.
Proof.
  intros Hle. unfold compute_tier.
  destruct (Float.ge x (Float.of_int 1000)) eqn:E1.
  { assert (Float.ge y (Float.of_int 1000) = true) as ->
      by (revert E1; exact (ge_trans_pos x y _ _ Hle)).
    done. }
  destruct (Float.ge x (Float.of_int 500)) eqn:E2.
  { assert (Float.ge y (Float.of_int 500) = true) as ->
      by (revert E2; exact (ge_trans_pos x y _ _ Hle)).
    destruct (Float.ge y (Float.of_int 1000)); vm_compute; lia. }
  destruct (Float.ge x (Float.of_int 100)) eqn:E3.
  { assert (Float.ge y (Float.of_int 100) = true) as ->
      by (revert E3; exact (ge_trans_pos x y _ _ Hle)).
    destruct (Float.ge y (Float.of_int 1000)), (Float.ge y (Float.of_int 500));
      vm_compute; lia. }
  change (tier_rank "REGULAR") with 0%nat. lia.
Qed.

(** A purchase of 0.01 lifts a spend of 499.99 from SILVER to GOLD. *)
Lemma compute_tier_monotone_witness :
  Float.le (Float.lit 49999 100) (Float.lit 50000 100) = true ∧
  (tier_rank (compute_tier (Float.lit 49999 100))
   ≤ tier_rank (compute_tier (Float.lit 50000 100)))%nat.
Proof.
  assert (Float.le (Float.lit 49999 100) (Float.lit 50000 100) = true) as H
    by (vm_compute; reflexivity).
  split; [exact H|].
  exact (compute_tier_monotone (Float.lit 49999 100) (Float.lit 50000 100) H).
Defined.

(** X7: every spend other than NaN lies in the band of the tier that
    [compute_tier] gives it, so the four bands leave no gap on the
    number line (negative spends and minus infinity are REGULAR, plus
    infinity is VIP). *)
Theorem compute_tier_in_band (x : float) :
  x ≠ Float.nan → tier_band x (compute_tier x).
Proof.
  intros Hx. unfold compute_tier.
  destruct (Float.ge x (Float.of_int 1000)) eqn:E1; [by apply band_vip|].
  assert (Float.lt x (Float.of_int 1000) = true) as L1
    by (revert E1; exact (not_ge_lt x _ _ Hx)).
  destruct (Float.ge x (Float.of_int 500)) eqn:E2; [by apply band_gold|].
  assert (Float.lt x (Float.of_int 500) = true) as L2
    by (revert E2; exact (not_ge_lt x _ _ Hx)).
  destruct (Float.ge x (Float.of_int 100)) eqn:E3; [by apply band_silver|].
  assert (Float.lt x (Float.of_int 100) = true) as L3
    by (revert E3; exact (not_ge_lt x _ _ Hx)).
  by apply band_regular.
Qed.

(** A refund that leaves a spend of -20.00 is in the REGULAR band. *)
Lemma compute_tier_in_band_witness :
  Float.lit (-2000) 100 ≠ Float.nan ∧
  tier_band (Float.lit (-2000) 100) (compute_tier (Float.lit (-2000) 100)).
Proof.
  assert (Float.lit (-2000) 100 ≠ Float.nan) as H by (vm_compute; discriminate).
  split; [exact H|]. exact (compute_tier_in_band _ H).
Defined.

(** ** Membership: looking a customer up *)

(** X8: [find_customer] scans from the front.  It returns the first
    record whose [customer_id] is the string asked for; it returns [None]
    exactly when every record has a [customer_id] and none is that
    string; and the only way it fails is a [KeyError] on a record
    without [customer_id] that comes before any match. *)
Theorem find_customer_first_match (customers : list (gmap string pyval))
    (customer_id : string) :
  match find_customer customers customer_id with
  | Returns (Some c) =>
      ∃ before after,
        customers = before ++ c :: after ∧
        Forall (other_id customer_id) before ∧ has_id customer_id c
  | Returns None => Forall (other_id customer_id) customers
  | Raises e =>
      e = KeyError "customer_id" ∧
      ∃ before c after,
        customers = before ++ c :: after ∧
        Forall (other_id customer_id) before ∧ c !! "customer_id" = None
  end.
Proof.
  induction customers as [|c rest IH]; [by constructor|].
  cbn [find_customer].
  destruct (c !! "customer_id") as [value|] eqn:Hc.
  - destruct (eq_str value customer_id) eqn:Heq.
    + exists [], rest. split_and!; [done|constructor|].
      unfold has_id. rewrite Hc. f_equal.
      destruct value; try discriminate. simpl in Heq.
      by apply bool_decide_eq_true in Heq as ->.
    + assert (other_id customer_id c) as Hother by (by exists value).
      destruct (find_customer rest customer_id) as [[found|]|e].
      * destruct IH as (before & after & -> & Hb & Hf).
        exists (c :: before), after. split_and!; [done|by constructor|done].
      * by constructor.
      * destruct IH as (-> & before & c' & after & -> & Hb & Hn).
        split; [done|]. exists (c :: before), c', after.
        split_and!; [done|by constructor|done].
  - split; [done|]. exists [], c, rest. split_and!; [done|constructor|done].
Qed.

(** ** The cart under a run of [add] calls *)

Lemma set_cart_same w : set_cart (cart w) w = w.
Proof. by destruct w. Qed.

Lemma accepted_positive requests :
  Forall (λ it, 0 < qty it) (accepted requests).
Proof.
  induction requests as [|request rest IH]; [constructor|]. cbn [accepted].
  destruct (decide (request.2 ≤ 0)); constructor; [simpl; lia | done].
Qed.

Lemma cart_add_rejects sku qty w :
  qty ≤ 0 → Cart.add sku qty w = (Raises InvalidQuantity, w).
Proof. intros H. unfold Cart.add. by rewrite decide_True. Qed.

Lemma cart_add_appends sku qty w :
  ¬ qty ≤ 0 →
  Cart.add sku qty w = (Returns tt, set_cart (cart w ++ [mk_CartItem sku qty]) w).
Proof. intros H. unfold Cart.add. by rewrite decide_False. Qed.

(** X9: a run of [add] calls, stopped by the first exception, appends to
    the cart the entries of all requests before the first one whose
    quantity is not positive, in request order and without merging equal
    SKUs; it raises exactly when there is such a request, and the entries
    appended before it stay in the cart.  Quantities in the cart stay
    positive. *)
Theorem cart_add_run (requests : list (string * Z)) (w : world) :
  for_each requests (λ request, Cart.add request.1 request.2) w
  = (if decide (Forall (λ request, 0 < request.2) requests)
     then Returns tt else Raises InvalidQuantity,
     set_cart (cart w ++ accepted requests) w) ∧
  (Forall (λ it, 0 < qty it) (cart w) →
   Forall (λ it, 0 < qty it) (cart w ++ accepted requests)).
Proof.
  split.
  - revert w. induction requests as [|request rest IH]; intros w.
    + cbn [for_each accepted]. rewrite app_nil_r, set_cart_same.
      by rewrite decide_True by constructor.
    + cbn [for_each accepted].
      destruct (decide (request.2 ≤ 0)) as [Hbad|Hok].
      * rewrite (bind_raises _ _ _ _ _ (cart_add_rejects request.1 _ w Hbad)).
        rewrite app_nil_r, set_cart_same.
        rewrite decide_False; [done|].
        intros H. apply Forall_cons in H as [H _]. lia.
      * rewrite (bind_returns _ _ _ _ _ (cart_add_appends request.1 _ w Hok)).
        rewrite IH. cbn [cart set_cart].
        rewrite <- app_assoc. cbn [app]. f_equal.
        destruct (decide (Forall _ rest)) as [Hr|Hr].
        -- rewrite decide_True; [done|]. constructor; [lia|done].
        -- rewrite decide_False; [done|].
           intros H. by apply Forall_cons in H as [_ H].
  - intros H. apply Forall_app. split; [done | apply accepted_positive].
Qed.

(** ** The stock ledger of [models/inventory.py] *)

(** X10: the two operations of [Inventory] keep every quantity at zero
    or more: from a stock without negative entries, whatever
    [add_stock] or [reduce_stock] returns has no negative entry. *)
Theorem inventory_never_negative (stock stock' : gmap string Z) (sku : string)
    (qty : Z) :
  map_Forall (λ _ v, 0 ≤ v) stock →
  Inventory.add_stock stock sku qty = Returns stock' ∨
  Inventory.reduce_stock stock sku qty = Returns stock' →
  map_Forall (λ _ v, 0 ≤ v) stock'.
Proof.
  intros Hpos [H|H].
  - unfold Inventory.add_stock in H.
    destruct (decide (qty ≤ 0)); [done|]. injection H as <-.
    apply map_Forall_insert_2; [|done].
    destruct (stock !! sku) as [have|] eqn:E; simpl; [|lia].
    specialize (Hpos sku have E). simpl in Hpos. lia.
  - unfold Inventory.reduce_stock in H.
    destruct (decide (default 0 (stock !! sku) < qty)) as [|Hge]; [done|].
    destruct (stock !! sku) as [have|] eqn:E; [|done]. injection H as <-.
    apply map_Forall_insert_2; [|done]. simpl in Hge. lia.
Qed.

(** Three in stock, reduced by three. *)
Lemma inventory_never_negative_witness :
  let stock : gmap string Z := {[ "A" := 3 ]} in
  map_Forall (λ _ v, 0 ≤ v) stock ∧
  Inventory.reduce_stock stock "A" 3 = Returns {[ "A" := 0 ]} ∧
  map_Forall (λ _ v, 0 ≤ v) ({[ "A" := 0 ]} : gmap string Z).
Proof.
  intros stock.
  assert (map_Forall (λ _ v, 0 ≤ v) stock) as H.
  { apply map_Forall_singleton. lia. }
  assert (Inventory.reduce_stock stock "A" 3 = Returns {[ "A" := 0 ]}) as E
    by (vm_compute; reflexivity).
  split; [exact H|]. split; [exact E|].
  exact (inventory_never_negative stock _ "A" 3 H (or_intror E)).
Defined.

(** X11: taking out what was just put in restores the quantity: when
    the SKU has no negative quantity, [add_stock] of a positive quantity
    followed by [reduce_stock] of the same quantity of the same SKU
    returns, and gives the stock back with the old quantity of that SKU;
    a SKU that had no entry before is left with an explicit entry of 0. *)
Theorem add_then_reduce (stock : gmap string Z) (sku : string) (qty : Z) :
  0 < qty →
  0 ≤ default 0 (stock !! sku) →
  ∃ stock1,
    Inventory.add_stock stock sku qty = Returns stock1 ∧
    Inventory.reduce_stock stock1 sku qty
    = Returns (<[sku := default 0 (stock !! sku)]> stock).
Proof.
  intros Hq Hhave.
  exists (<[sku := default 0 (stock !! sku) + qty]> stock). split.
  - unfold Inventory.add_stock. by rewrite decide_False by lia.
  - unfold Inventory.reduce_stock. rewrite lookup_insert_eq.
    change (default 0 (Some ?v)) with v.
    rewrite decide_False by lia.
    f_equal. rewrite insert_insert_eq. f_equal. lia.
Qed.

(** A SKU that the ledger has never seen. *)
Lemma add_then_reduce_witness :
  ∃ stock1,
    Inventory.add_stock ∅ "NEW" 4 = Returns stock1 ∧
    Inventory.reduce_stock stock1 "NEW" 4
    = Returns (<["NEW" := default 0 ((∅ : gmap string Z) !! "NEW")]> ∅).
Proof.
  refine (add_then_reduce ∅ "NEW" 4 ltac:(lia) _).
  vm_compute. discriminate.
Defined.

(** ** The repository *)

Lemma read_json_spec filename w :
  DataRepository._read_json filename w =
  (Returns (match files w !! filename with
            | Some (Holds v) => v
            | _ => PList []
            end), w).
Proof.
  unfold DataRepository._read_json. run.
  by destruct (files w !! filename) as [[| |v]|].
Qed.

(** X12: no getter of the repository raises or changes anything.  The
    list-shaped stores (products, orders, customers) read as the stored
    list, and as the empty list when the file is missing, blank, corrupt
    or holds anything but a list; the inventory store reads as the stored
    object, and as the empty dict (not the empty list) in those cases. *)
Theorem getters_fall_back (w : world) :
  DataRepository.get_products w
    = (Returns (stored_list (files w !! "products.json")), w) ∧
  DataRepository.get_orders w
    = (Returns (stored_list (files w !! "orders.json")), w) ∧
  DataRepository.get_customers w
    = (Returns (stored_list (files w !! "customers.json")), w) ∧
  DataRepository.get_inventory w
    = (Returns (stored_dict (files w !! "inventory.json")), w).
Proof.
  unfold DataRepository.get_products, DataRepository.get_orders,
    DataRepository.get_customers, DataRepository.get_inventory.
  split_and!.
  - rewrite (bind_returns _ _ _ _ _ (read_json_spec "products.json" w)).
    by destruct (files w !! "products.json") as [[| |[]]|].
  - rewrite (bind_returns _ _ _ _ _ (read_json_spec "orders.json" w)).
    by destruct (files w !! "orders.json") as [[| |[]]|].
  - rewrite (bind_returns _ _ _ _ _ (read_json_spec "customers.json" w)).
    by destruct (files w !! "customers.json") as [[| |[]]|].
  - rewrite (bind_returns _ _ _ _ _ (read_json_spec "inventory.json" w)).
    by destruct (files w !! "inventory.json") as [[| |[]]|].
Qed.




(** ** Checkout: what the order holds *)




Lemma checkout_returns_inv self products_map tier w o w' :
  CheckoutService.checkout self products_map tier w = (Returns o, w') →
  ∃ lines total w1 w2,
    Forall (λ it, ¬ offends products_map (inventory w) it) (cart w) ∧
    CheckoutService.price_lines self products_map tier (cart w) [] Float.zero w
      = (Returns (lines, total), w1) ∧
    for_each (cart w1) CheckoutService.deduct w1 = (Returns tt, w2) ∧
    o = persisted_order lines (Float.round2 total) w2 ∧
    w' = persisted_world o w2.
Proof.
  rewrite checkout_phases.
  destruct (for_each (cart w) _ w) as [[[]|e] w0] eqn:E0; [|done].
  pose proof (validation_returns_inv _ _ _ _ E0) as Hok.
  apply validation_world in E0 as ->.
  destruct (CheckoutService.price_lines _ _ _ _ _ _ _)
    as [[[lines total]|e] w1] eqn:E1; [|done].
  destruct (for_each (cart w1) _ w1) as [[[]|e] w2] eqn:E2; [|done].
  rewrite persist_spec. intros [= <- <-].
  by exists lines, total, w1, w2.
Qed.



(** ** Checkout: what happens to the stock *)

Lemma deduct_loop_amounts its w w' :
  for_each its CheckoutService.deduct w = (Returns tt, w') →
  ∀ k, inventory w' !! k = (λ v, v - demand k its) <$> (inventory w !! k).
Proof.
  revert w. induction its as [|it rest IH]; intros w.
  - cbn. intros [= <-] k. destruct (inventory w !! k); cbn; [f_equal; lia|done].
  - cbn [for_each].
    destruct (inventory w !! sku it) as [have|] eqn:Hhave.
    + rewrite (bind_returns _ _ _ _ _ (deduct_present it w have Hhave)).
      intros E k. rewrite (IH _ E k). cbn [inventory set_inventory demand foldr].
      destruct (decide (sku it = k)) as [<-|Hne].
      * rewrite lookup_insert_eq, Hhave. cbn. f_equal.
        fold (demand (sku it) rest). lia.
      * by rewrite lookup_insert_ne.
    + unfold CheckoutService.deduct. run. by rewrite Hhave.
Qed.

(** X17: a checkout that returns takes from every SKU exactly what the
    cart asks of it, all lines of that SKU together: the quantity of a
    SKU afterwards is its quantity before minus the sum of the quantities
    of the cart lines with that SKU; SKUs that the cart does not name
    keep their quantity, and no entry is added or removed. *)
Theorem checkout_deducts_demand (self : CheckoutService.t)
    (products_map : gmap string Product) (membership_tier : string)
    (w w' : world) (o : Order) :
  Forall keeps_store (PricingService.rules (CheckoutService.pricing self)) →
  CheckoutService.checkout self products_map membership_tier w = (Returns o, w') →
  ∀ k, inventory w' !! k = (λ v, v - demand k (cart w)) <$> (inventory w !! k).
Proof.
  intros Hrules E k. apply checkout_returns_inv in E
    as (lines & total & w1 & w2 & _ & E1 & E2 & _ & ->).
  pose proof (price_lines_keeps_store self Hrules products_map membership_tier
                (cart w) [] Float.zero w) as H1.
  rewrite E1 in H1. destruct H1 as (_ & Hcart1 & Hinv1). simpl in Hcart1, Hinv1.
  cbn [inventory persisted_world].
  rewrite (deduct_loop_amounts _ _ _ E2 k). by rewrite Hcart1, Hinv1.
Qed.

(** Two lines of "A" and one of "B"; "C" is not in the cart. *)
Lemma checkout_deducts_demand_witness :
  let product n := mk_Product n n (Some "Dairy") (Some (Float.lit 1000 100)) true in
  let products_map : gmap string Product := {[ "A" := product "A"; "B" := product "B" ]} in
  let self := CheckoutService.new (example_engine ∅) in
  let w := mk_world (λ _, mk_datetime 2025 11 3 (mk_time 9 0 0 0)) 0 ∅
             [mk_CartItem "A" 1; mk_CartItem "B" 4; mk_CartItem "A" 2]
             {[ "A" := 5; "B" := 5; "C" := 7 ]} in
  ∃ o w',
    CheckoutService.checkout self products_map "REGULAR" w = (Returns o, w') ∧
    inventory w' !! "A" = Some 2 ∧
    inventory w' !! "B" = Some 1 ∧
    inventory w' !! "C" = Some 7 ∧
    inventory w' !! "D" = None.
Proof.
  intros product products_map self w.
  pose (blank := mk_Order "" (clock w 0%nat) [] Float.zero).
  pose (r := CheckoutService.checkout self products_map "REGULAR" w).
  pose (o := match fst r with Returns o => o | Raises _ => blank end).
  assert (CheckoutService.checkout self products_map "REGULAR" w
          = (Returns o, snd r)) as E by (vm_compute; reflexivity).
  assert (Forall keeps_store (PricingService.rules (CheckoutService.pricing self)))
    as Hrules.
  { eapply Forall_impl; [apply example_engine_standard | apply standard_keeps_store]. }
  pose proof (checkout_deducts_demand self products_map "REGULAR" w (snd r) o
                Hrules E) as H.
  exists o, (snd r). split; [exact E|].
  split_and!; rewrite H; vm_compute; reflexivity.
Defined.

(** ** Checkout: when it fails and when it returns *)

Lemma deduct_loop_returns its w :
  Forall (λ it, is_Some (inventory w !! sku it)) its →
  ∃ w', for_each its CheckoutService.deduct w = (Returns tt, w').
Proof.
  revert w. induction its as [|it rest IH]; intros w H.
  - by exists w.
  - apply Forall_cons in H as [[have Hhave] Hrest]. cbn [for_each].
    rewrite (bind_returns _ _ _ _ _ (deduct_present it w have Hhave)).
    apply IH. eapply Forall_impl; [exact Hrest|].
    intros x Hx. cbn [inventory set_inventory].
    apply lookup_insert_is_Some.
    destruct (decide (sku it = sku x)); [by left | by right].
Qed.

Lemma passing_line_in_stock products_map inv it :
  ¬ offends products_map inv it → 0 < qty it → is_Some (inv !! sku it).
Proof.
  unfold offends. intros Hok Hq.
  destruct (inv !! sku it) as [have|]; [by eexists|].
  destruct Hok. right. simpl. lia.
Qed.

Lemma checkout_commit_phase self products_map tier w :
  CheckoutService.checkout self products_map tier w
  = ('(order_items, total) ← before_commit self products_map tier;
     persist order_items total) w.
Proof.
  rewrite checkout_phases. unfold before_commit. run.
  destruct (for_each (cart w) _ w) as [[[]|e] w0]; [|done].
  destruct (CheckoutService.price_lines _ _ _ _ _ _ _)
    as [[[order_items total]|e] w1]; [|done].
  by destruct (for_each (cart w1) _ w1) as [[[]|e] w2].
Qed.

Lemma before_commit_phases self products_map tier w :
  before_commit self products_map tier w =
  match for_each (cart w) (CheckoutService.validate products_map) w with
  | (Raises e, w0) => (Raises e, w0)
  | (Returns _, w0) =>
      match CheckoutService.price_lines self products_map tier (cart w0) []
              Float.zero w0 with
      | (Raises e, w1) => (Raises e, w1)
      | (Returns (order_items, total), w1) =>
          match for_each (cart w1) CheckoutService.deduct w1 with
          | (Raises e, w2) => (Raises e, w2)
          | (Returns _, w2) => (Returns (order_items, Float.round2 total), w2)
          end
      end
  end.
Proof.
  unfold before_commit. run.
  destruct (for_each (cart w) _ w) as [[[]|e] w0]; [|done].
  destruct (CheckoutService.price_lines _ _ _ _ _ _ _)
    as [[[order_items total]|e] w1]; [|done].
  by destruct (for_each (cart w1) _ w1) as [[[]|e] w2].
Qed.

(** X18: [checkout] is its first three phases (validation, pricing,
    deduction) followed by the commit phase.  With positive quantities
    in the cart and rules that leave the store alone, an exception in
    the first three phases, at whatever point and of whatever kind,
    leaves the inventory, the cart and every file as they were: nothing
    is deducted, no order is persisted, and the cart is not cleared. *)
Theorem raise_before_commit_untouched (self : CheckoutService.t)
    (products_map : gmap string Product) (membership_tier : string)
    (w : world) :
  Forall keeps_store (PricingService.rules (CheckoutService.pricing self)) →
  Forall (λ it, 0 < qty it) (cart w) →
  CheckoutService.checkout self products_map membership_tier w
  = ('(order_items, total) ← before_commit self products_map membership_tier;
     persist order_items total) w ∧
  ∀ e w',
    before_commit self products_map membership_tier w = (Raises e, w') →
    same_store w w' ∧
    CheckoutService.checkout self products_map membership_tier w = (Raises e, w').
Proof.
  intros Hrules Hqty. split; [apply checkout_commit_phase|].
  intros e w' E. split.
  2: { rewrite checkout_commit_phase. unfold mbind, M_bind. by rewrite E. }
  revert E. rewrite before_commit_phases.
  destruct (for_each (cart w) _ w) as [[[]|e0] w0] eqn:E0.
  2: { apply validation_world in E0 as ->. by intros [= _ <-]. }
  pose proof (validation_returns_inv _ _ _ _ E0) as Hok.
  apply validation_world in E0 as ->.
  pose proof (price_lines_keeps_store self Hrules products_map membership_tier
                (cart w) [] Float.zero w) as H1.
  destruct (CheckoutService.price_lines _ _ _ _ _ _ _)
    as [[[lines total]|e1] w1] eqn:E1.
  2: { by intros [= _ <-]. }
  destruct H1 as (Hfiles1 & Hcart1 & Hinv1). simpl in Hfiles1, Hcart1, Hinv1.
  destruct (deduct_loop_returns (cart w1) w1) as [w2 E2].
  { rewrite Hcart1, Hinv1. apply Forall_forall. intros it Hit.
    apply (passing_line_in_stock products_map).
    - by apply (proj1 (Forall_forall _ _) Hok).
    - by apply (proj1 (Forall_forall _ _) Hqty). }
  rewrite E2. discriminate.
Qed.

(** A product without a price makes pricing raise after validation
    passed. *)
Lemma raise_before_commit_untouched_witness :
  let product := mk_Product "A" "Milk" (Some "Dairy") None true in
  let products_map : gmap string Product := {[ "A" := product ]} in
  let self := CheckoutService.new (example_engine ∅) in
  let w := mk_world (λ _, mk_datetime 2025 11 3 (mk_time 9 0 0 0)) 0 ∅
             [mk_CartItem "A" 1] {[ "A" := 5 ]} in
  before_commit self products_map "REGULAR" w = (Raises (KeyError "price"), w) ∧
  CheckoutService.checkout self products_map "REGULAR" w
    = (Raises (KeyError "price"), w) ∧
  inventory w = {[ "A" := 5 ]} ∧
  same_store w w.
Proof.
  intros product products_map self w.
  assert (before_commit self products_map "REGULAR" w
          = (Raises (KeyError "price"), w)) as E by (vm_compute; reflexivity).
  assert (Forall keeps_store (PricingService.rules (CheckoutService.pricing self)))
    as Hrules.
  { eapply Forall_impl; [apply example_engine_standard | apply standard_keeps_store]. }
  assert (Forall (λ it, 0 < qty it) (cart w)) as Hqty by repeat constructor.
  destruct (raise_before_commit_untouched self products_map "REGULAR" w Hrules Hqty)
    as [_ H].
  destruct (H _ _ E) as [Hsame Hraise].
  split; [exact E|]. split; [exact Hraise|]. split; [reflexivity | exact Hsame].
Defined.

Lemma price_lines_returns self products_map tier its acc tot w :
  Forall standard (PricingService.rules (CheckoutService.pricing self)) →
  Forall (λ it, is_Some (products_map !! sku it) ∧ priced products_map it ∧
                converts (qty it)) its →
  ∃ lines total w',
    CheckoutService.price_lines self products_map tier its acc tot w
      = (Returns (lines, total), w') ∧
    same_store w w'.
Proof.
  intros Hstd Hits. revert acc tot w.
  induction Hits as [|it rest ([product Hp] & Hpriced & Hconv) _ IH];
    intros acc tot w.
  - by exists acc, tot, w.
  - destruct (Hpriced product Hp) as [base Hb].
    destruct (standard_price_item self Hstd (sku it) product (qty it) base
                (Some (mk_Context (Some tier) None)) w) as (u & w1 & Eu & K1).
    rewrite (price_lines_cons self products_map tier it rest acc tot w product
               base u w1 Hp Hb Eu Hconv).
    destruct (IH (acc ++ [mk_OrderItem (sku it) (qty it) u
                            (Float.round2 (Float.mul u (Float.of_int (qty it))))])
                 (Float.add tot (Float.round2 (Float.mul u (Float.of_int (qty it)))))
                 w1) as (lines & total & w2 & E & K2).
    exists lines, total, w2. split; [exact E|]. by eapply same_store_trans.
Qed.

(** X19: for an engine of the shipped rules and a cart of positive
    quantities that [float * int] can convert, whose products carry a
    price, validation alone decides whether [checkout] gets to its
    commit phase: validation, pricing and deduction go through without
    an exception exactly when no cart line names a SKU missing from the
    catalog or asks for more than the snapshot has. *)
Theorem checkout_reaches_commit_iff_valid (self : CheckoutService.t)
    (products_map : gmap string Product) (membership_tier : string) (w : world) :
  Forall standard (PricingService.rules (CheckoutService.pricing self)) →
  Forall (λ it, 0 < qty it ∧ converts (qty it) ∧ priced products_map it) (cart w) →
  CheckoutService.checkout self products_map membership_tier w
  = ('(order_items, total) ← before_commit self products_map membership_tier;
     persist order_items total) w ∧
  ((∃ order_items total w',
      before_commit self products_map membership_tier w
      = (Returns (order_items, total), w'))
   ↔ Forall (λ it, ¬ offends products_map (inventory w) it) (cart w)).
Proof.
  intros Hstd Hcart. split; [apply checkout_commit_phase|].
  rewrite before_commit_phases. split.
  - intros (order_items & total & w' & E). revert E.
    destruct (for_each (cart w) _ w) as [[[]|e] w0] eqn:E0; [|done].
    intros _. exact (validation_returns_inv _ _ _ _ E0).
  - intros Hok.
    rewrite (validation_passes products_map (cart w) w Hok).
    destruct (price_lines_returns self products_map membership_tier (cart w) []
                Float.zero w Hstd) as (lines & total & w1 & E1 & K1).
    { apply Forall_forall. intros it Hit.
      pose proof (proj1 (Forall_forall _ _) Hcart it Hit) as (_ & Hc & Hp).
      pose proof (proj1 (Forall_forall _ _) Hok it Hit) as Hno.
      split_and!; try done.
      destruct (products_map !! sku it) eqn:E; [by eexists|].
      destruct Hno. by left. }
    rewrite E1. destruct K1 as (_ & Hcart1 & Hinv1).
    destruct (deduct_loop_returns (cart w1) w1) as [w2 E2].
    { rewrite Hcart1, Hinv1. apply Forall_forall. intros it Hit.
      apply (passing_line_in_stock products_map).
      - by apply (proj1 (Forall_forall _ _) Hok).
      - by apply (proj1 (Forall_forall _ _) Hcart it Hit). }
    rewrite E2. by eexists _, _, _.
Qed.

(** A cart within the stock: the first three phases go through, with
    one line at 9.00 for two units and the stock deducted. *)
Lemma checkout_reaches_commit_iff_valid_witness :
  let product := mk_Product "A" "Milk" (Some "Dairy") (Some (Float.lit 1000 100)) true in
  let products_map : gmap string Product := {[ "A" := product ]} in
  let self := CheckoutService.new (example_engine ∅) in
  let w := mk_world (λ _, mk_datetime 2025 11 3 (mk_time 9 0 0 0)) 0 ∅
             [mk_CartItem "A" 2] {[ "A" := 5 ]} in
  Forall (λ it, ¬ offends products_map (inventory w) it) (cart w) ∧
  (∃ order_items total w',
     before_commit self products_map "REGULAR" w
     = (Returns (order_items, total), w')) ∧
  fst (before_commit self products_map "REGULAR" w)
  = Returns ([mk_OrderItem "A" 2 (Float.lit 900 100) (Float.lit 1800 100)],
             Float.lit 1800 100).
Proof.
  intros product products_map self w.
  assert (Forall (λ it, ¬ offends products_map (inventory w) it) (cart w)) as Hok.
  { repeat constructor. intros [H|H]; vm_compute in H; discriminate. }
  split; [exact Hok|]. split; [|vm_compute; reflexivity].
  refine (proj2 (proj2 (checkout_reaches_commit_iff_valid self products_map
                          "REGULAR" w _ _)) Hok).
  - apply example_engine_standard.
  - repeat constructor; try (vm_compute; exact I).
    intros p Hp. vm_compute in Hp. injection Hp as <-. by eexists.
Defined.

(** X20: a checkout that returns leaves the cart empty, leaves
    [inventory.json] holding exactly the inventory dict as it is in
    memory after the deductions, and leaves [orders.json] holding a list
    that ends with the record of the returned order: its id, its time
    stamp in ISO format, its total, and for every line the SKU, the
    quantity, the unit price and the subtotal; whatever the two files
    held before. *)
Theorem checkout_commits (self : CheckoutService.t)
    (products_map : gmap string Product) (membership_tier : string)
    (w w' : world) (o : Order) :
  CheckoutService.checkout self products_map membership_tier w = (Returns o, w') →
  let line (x : OrderItem) : pyval :=
    PDict {[ "sku" := PStr (oi_sku x); "qty" := PInt (oi_qty x);
             "unit_price" := PFloat (unit_price x);
             "subtotal" := PFloat (subtotal x) ]} in
  let record : pyval :=
    PDict {[ "order_id" := PStr (order_id o);
             "created_at" := PStr (isoformat (created_at o));
             "items" := PList (line <$> items o);
             "total" := PFloat (total o) ]} in
  cart w' = [] ∧
  files w' !! "inventory.json" = Some (Holds (PDict (PInt <$> inventory w'))) ∧
  ∃ earlier,
    files w' !! "orders.json" = Some (Holds (PList (earlier ++ [record]))).
Proof.
  intros E line record. apply checkout_returns_inv in E
    as (lines & total & w1 & w2 & _ & _ & _ & Ho & ->).
  unfold persisted_world. cbn [cart files inventory]. split_and!.
  - reflexivity.
  - by rewrite lookup_insert_eq.
  - exists (order_history w2). rewrite lookup_insert_ne by done.
    by rewrite lookup_insert_eq.
Qed.

(** A checkout over a corrupt order file and a stale inventory file. *)
Lemma checkout_commits_witness :
  let product := mk_Product "A" "Milk" (Some "Dairy") (Some (Float.lit 1000 100)) true in
  let products_map : gmap string Product := {[ "A" := product ]} in
  let self := CheckoutService.new (example_engine ∅) in
  let w := mk_world (λ _, mk_datetime 2025 11 3 (mk_time 9 0 0 0)) 0
             {[ "orders.json" := Corrupt;
                "inventory.json" := Holds (PDict {[ "A" := PInt 9 ]}) ]}
             [mk_CartItem "A" 2] {[ "A" := 5 ]} in
  let record : pyval :=
    PDict {[ "order_id" := PStr "ORD-000001";
             "created_at" := PStr "2025-11-03T09:00:00";
             "items" :=
               PList [PDict {[ "sku" := PStr "A"; "qty" := PInt 2;
                               "unit_price" := PFloat (Float.lit 900 100);
                               "subtotal" := PFloat (Float.lit 1800 100) ]}];
             "total" := PFloat (Float.lit 1800 100) ]} in
  ∃ o w',
    CheckoutService.checkout self products_map "REGULAR" w = (Returns o, w') ∧
    cart w' = [] ∧
    files w' !! "inventory.json" = Some (Holds (PDict {[ "A" := PInt 3 ]})) ∧
    files w' !! "orders.json" = Some (Holds (PList [record])).
Proof.
  intros product products_map self w record.
  pose (blank := mk_Order "" (clock w 0%nat) [] Float.zero).
  pose (r := CheckoutService.checkout self products_map "REGULAR" w).
  pose (o := match fst r with Returns o => o | Raises _ => blank end).
  assert (CheckoutService.checkout self products_map "REGULAR" w
          = (Returns o, snd r)) as E by (vm_compute; reflexivity).
  destruct (checkout_commits self products_map "REGULAR" w (snd r) o E)
    as (Hcart & Hinv & _).
  exists o, (snd r). split; [exact E|]. split; [exact Hcart|]. split.
  - rewrite Hinv. vm_compute. reflexivity.
  - vm_compute. reflexivity.
Defined.

(** ** Order ids *)

Lemma zeros_cons k :
  String.concat "" (replicate (S k) "0")
  = "0" +:+ String.concat "" (replicate k "0").
Proof. destruct k; reflexivity. Qed.

Lemma read_leading_zero digits :
  read_number ("0" +:+ digits) = read_number digits.
Proof.
  change ("0" +:+ digits)
    with (String (Ascii.Ascii false false false false true true false false) digits).
  unfold read_number. cbn [NilEmpty.uint_of_string].
  by destruct (NilEmpty.uint_of_string digits).
Qed.

Lemma read_leading_zeros k digits :
  read_number (String.concat "" (replicate k "0") +:+ digits)
  = read_number digits.
Proof.
  induction k as [|k IH]; [reflexivity|].
  rewrite zeros_cons.
  change (("0" +:+ ?a) +:+ ?b) with ("0" +:+ (a +:+ b)).
  by rewrite read_leading_zero.
Qed.

Lemma read_number_zfill width n : read_number (zfill width n) = Some n.
Proof.
  unfold zfill. rewrite read_leading_zeros. unfold read_number.
  rewrite NilEmpty.usu. cbn. f_equal. apply DecimalNat.Unsigned.of_to.
Qed.

Lemma checkout_returns_id self products_map tier w o w' :
  Forall keeps_store (PricingService.rules (CheckoutService.pricing self)) →
  CheckoutService.checkout self products_map tier w = (Returns o, w') →
  order_id o = "ORD-" +:+ zfill 6 (length (order_history w) + 1).
Proof.
  intros Hrules E. apply checkout_returns_inv in E
    as (lines & total & w1 & w2 & _ & E1 & E2 & -> & _).
  pose proof (price_lines_keeps_store self Hrules products_map tier
                (cart w) [] Float.zero w) as H1.
  rewrite E1 in H1. destruct H1 as (Hfiles1 & _). simpl in Hfiles1.
  apply deduct_keeps_files in E2 as (Hfiles2 & _).
  cbn [order_id persisted_order].
  rewrite (order_history_same_files w w2); [done | congruence].
Qed.

(** X21: an order id tells how long the order history was: the digits
    after ["ORD-"] read back as a number are the number of orders
    persisted before plus one, for every history length, also past
    999999 where the id grows beyond six digits.  So two checkouts that
    return the same id started from histories of the same length, and
    ids are not reused while the history only grows. *)
Theorem order_id_tells_history_length (self : CheckoutService.t)
    (products_map1 products_map2 : gmap string Product) (tier1 tier2 : string)
    (w1 w1' w2 w2' : world) (o1 o2 : Order) :
  Forall keeps_store (PricingService.rules (CheckoutService.pricing self)) →
  CheckoutService.checkout self products_map1 tier1 w1 = (Returns o1, w1') →
  CheckoutService.checkout self products_map2 tier2 w2 = (Returns o2, w2') →
  (∃ digits, order_id o1 = "ORD-" +:+ digits ∧
             read_number digits = Some (length (order_history w1) + 1)%nat) ∧
  (order_id o1 = order_id o2 →
   length (order_history w1) = length (order_history w2)).
Proof.
  intros Hrules E1 E2.
  rewrite (checkout_returns_id _ _ _ _ _ _ Hrules E1),
    (checkout_returns_id _ _ _ _ _ _ Hrules E2).
  split.
  - eexists. split; [reflexivity | apply read_number_zfill].
  - intros H. apply (inj (String.append "ORD-")) in H.
    apply (f_equal read_number) in H.
    rewrite !read_number_zfill in H. injection H as H. lia.
Qed.

(** Two checkouts in a row: the ids differ. *)
Lemma order_id_tells_history_length_witness :
  let product := mk_Product "A" "Milk" (Some "Dairy") (Some (Float.lit 1000 100)) true in
  let products_map : gmap string Product := {[ "A" := product ]} in
  let self := CheckoutService.new (example_engine ∅) in
  let w := mk_world (λ _, mk_datetime 2025 11 3 (mk_time 9 0 0 0)) 0 ∅
             [mk_CartItem "A" 1] {[ "A" := 5 ]} in
  ∃ o1 w1 o2 w2,
    CheckoutService.checkout self products_map "REGULAR" w = (Returns o1, w1) ∧
    CheckoutService.checkout self products_map "REGULAR" w1 = (Returns o2, w2) ∧
    order_id o1 ≠ order_id o2.
Proof.
  intros product products_map self w.
  assert (Forall keeps_store (PricingService.rules (CheckoutService.pricing self)))
    as Hrules.
  { eapply Forall_impl; [apply example_engine_standard | apply standard_keeps_store]. }
  pose (blank := mk_Order "" (clock w 0%nat) [] Float.zero).
  pose (pick := λ r : outcome Order * world,
          match fst r with Returns o => o | Raises _ => blank end).
  pose (r1 := CheckoutService.checkout self products_map "REGULAR" w).
  pose (r2 := CheckoutService.checkout self products_map "REGULAR" (snd r1)).
  assert (CheckoutService.checkout self products_map "REGULAR" w
          = (Returns (pick r1), snd r1)) as E1 by (vm_compute; reflexivity).
  assert (CheckoutService.checkout self products_map "REGULAR" (snd r1)
          = (Returns (pick r2), snd r2)) as E2 by (vm_compute; reflexivity).
  exists (pick r1), (snd r1), (pick r2), (snd r2).
  split; [exact E1|]. split; [exact E2|].
  intros Hsame.
  pose proof (proj2 (order_id_tells_history_length self products_map products_map
                       "REGULAR" "REGULAR" w (snd r1) (snd r1) (snd r2)
                       (pick r1) (pick r2) Hrules E1 E2) Hsame) as Hlen.
  vm_compute in Hlen. discriminate.
Defined.

(** ** Checkout: the amounts of an order *)






(** ** Reports: low stock *)

(** X23: [low_stock] lists exactly the entries of the inventory whose
    quantity is at most the threshold (zero and negative quantities
    included), in inventory order; and raising the threshold only adds
    entries: the list for a threshold is a sublist of the list for any
    higher threshold. *)
Theorem low_stock_spec (inventory : list (string * Z)) (threshold : Z) :
  (∀ entry, entry ∈ ReportService.low_stock inventory threshold
            ↔ entry ∈ inventory ∧ entry.2 ≤ threshold) ∧
  ReportService.low_stock inventory threshold `sublist_of` inventory ∧
  (∀ higher, threshold ≤ higher →
     ReportService.low_stock inventory threshold
       `sublist_of` ReportService.low_stock inventory higher).
Proof.
  unfold ReportService.low_stock. split_and!.
  - intros entry. rewrite list_elem_of_filter. tauto.
  - apply sublist_filter.
  - intros higher Hle. induction inventory as [|entry rest IH]; [done|].
    rewrite !filter_cons.
    destruct (decide (entry.2 ≤ threshold)) as [H1|H1].
    + rewrite decide_True by lia. by constructor.
    + destruct (decide (entry.2 ≤ higher)); [by constructor | done].
Qed.
